(** * HealthGuard: the report pipeline of [server.ts] and the map popup of
    [App.tsx], embedded as state-passing functions over the SQLite tables.

    The server is an Express application over one better-sqlite3 database.
    Each route handler is modelled as a function from the database (and the
    parts of the request it reads) to the new database and the HTTP response.
    The one asynchronous handler, [POST /api/symptoms], is modelled in two
    atomic phases separated by its [await]: what runs before the call to the
    classifier ([symptoms_begin]) and what runs once the call has settled
    ([symptoms_resume]). *)

From Stdlib Require Import ZArith QArith Qround String Ascii List Lia Bool.
From stdpp Require Import base decidable option list sorting strings pretty.

#[local] Set Warnings "-register-all".
#[local] Open Scope string_scope.
#[local] Open Scope Z_scope.

(** ** JavaScript values *)

(** A JavaScript number. The handlers never compute with numbers: they bind
    them to SQL statements, and interpolate them in template literals.
    [num_value] is the number's value, [num_text] its rendering by
    [Number.prototype.toString], which travels with the value instead of
    being computed. The numbers are the finite ones: the [Infinity] that
    [JSON.parse] makes of a literal beyond the range of the doubles, and that
    [JSON.stringify] writes as [null], is not among them. *)
Record number := Number { num_value : Q; num_text : string }.

(** The integer [z] as a JavaScript number (row ids, [lastInsertRowid]). *)
Definition int (z : Z) : number :=
  {| num_value := inject_Z z; num_text := pretty z |}.

(** What [JSON.parse] and [express.json()] produce, and [undefined], which a
    missing property reads as. An object lists its properties in insertion
    order, each name once. *)
Inductive jsval :=
| JUndefined
| JNull
| JBool (b : bool)
| JNum (n : number)
| JStr (s : string)
| JArr (items : list jsval)
| JObj (props : list (string * jsval)).

Inductive error :=
| TypeError (msg : string)
| SyntaxError (msg : string)
| SqliteError (msg : string)
| RangeError (msg : string)
| AiError (msg : string).

(** Code that may throw: [inl e] is a thrown [e]. *)
Definition throws (A : Type) : Type := error + A.

Definition bind_throws {A B} (m : throws A) (k : A -> throws B) : throws B :=
  match m with
  | inl e => inl e
  | inr a => k a
  end.

Notation "'let!' x ':=' m 'in' k" := (bind_throws m (fun x => k))
  (at level 10, x pattern, m at level 100, k at level 200, only parsing).

Fixpoint assoc {A} (name : string) (props : list (string * A)) : option A :=
  match props with
  | [] => None
  | (k, v) :: rest => if String.eqb k name then Some v else assoc name rest
  end.

(** [v.name], for the property names the handlers read (none of them is
    [length] or an index): reading a property of [undefined] or [null] throws,
    an object gives the property or [undefined], every other value gives
    [undefined]. *)
Definition get (v : jsval) (name : string) : throws jsval :=
  match v with
  | JUndefined | JNull =>
      inl (TypeError ("Cannot read properties of " ++
                      (if v is JNull then "null" else "undefined")))
  | JObj props => inr (default JUndefined (assoc name props))
  | _ => inr JUndefined
  end.

(** [user?.role]: optional chaining gives [undefined] instead of throwing. *)
Definition get_opt (v : jsval) (name : string) : jsval :=
  match get v name with
  | inl _ => JUndefined
  | inr x => x
  end.

Fixpoint join (sep : string) (parts : list string) : string :=
  match parts with
  | [] => ""
  | [p] => p
  | p :: rest => p ++ sep ++ join sep rest
  end.

(** [String(v)], the conversion a template literal applies to [${v}]. *)
Fixpoint ToString (v : jsval) : string :=
  match v with
  | JUndefined => "undefined"
  | JNull => "null"
  | JBool true => "true"
  | JBool false => "false"
  | JNum n => num_text n
  | JStr s => s
  | JArr items =>
      join "," (List.map (fun x => match x with
                                   | JUndefined | JNull => ""
                                   | _ => ToString x
                                   end) items)
  | JObj _ => "[object Object]"
  end.

(** [a === b] against a string literal. *)
Definition strict_eq_str (v : jsval) (lit : string) : bool :=
  match v with
  | JStr s => String.eqb s lit
  | _ => false
  end.

(** ** The database *)

(** A value stored in a column or bound to a statement parameter. SQLite's
    INTEGER and REAL storage classes are both [SNum].

    Column affinity is not modelled: a value is stored, and compared, as it
    was bound. This is what SQLite does with a text in a TEXT column and with
    a number in an INTEGER or REAL column, the values the schema expects and
    the client sends. It is not what SQLite does with the others: a number
    bound to a TEXT column is stored as the text SQLite prints it as, and a
    text that spells a number is stored in a numeric column as that number.
    The properties below that state what a column holds, or which row a
    parameter matches, are therefore stated for values of the column's kind
    ([textual], [numeric]) or for what the forms of [App.tsx] send, which is
    of that kind. *)
Inductive sqlval :=
| SNull
| SNum (n : number)
| SText (s : string).

(** The two points on which the handlers depend on how the driver was built
    and configured, neither of which the repository fixes: whether
    [undefined] is bound as NULL or refused (better-sqlite3 binds it as NULL
    where it binds [null]), and whether SQLite enforces the FOREIGN KEY
    clauses (better-sqlite3's bundled build does). *)
Record driver := Driver { binds_undefined : bool; foreign_keys : bool }.

(** How better-sqlite3 binds one value to one [?]: numbers, strings and
    [null] are bound, [undefined] as the driver is set up, and every other
    value makes [run] throw before the statement executes. *)
Definition bind (drv : driver) (v : jsval) : throws sqlval :=
  match v with
  | JNull => inr SNull
  | JNum n => inr (SNum n)
  | JStr s => inr (SText s)
  | JUndefined =>
      if binds_undefined drv then inr SNull
      else inl (TypeError "SQLite3 can only bind numbers, strings, bigints, buffers, and null")
  | JBool _ | JArr _ | JObj _ =>
      inl (TypeError "SQLite3 can only bind numbers, strings, bigints, buffers, and null")
  end.

(** *** The arguments of [run] and [get]

    [run] and [get] take more than values. An array among their arguments
    stands for its elements, each bound as one value in its turn, and a plain
    object stands for named parameters, of which the statements of
    [server.ts] have none, so that it binds nothing; a second object is
    refused. Values go to the [?] of the statement from left to right; a
    value for which no [?] is left, and a [?] left without a value, is a
    RangeError. *)

(** A value that stands for itself among the arguments. *)
Definition scalar (v : jsval) : bool :=
  match v with
  | JArr _ | JObj _ => false
  | _ => true
  end.

Definition too_many : error := RangeError "Too many parameter values were provided".
Definition too_few : error := RangeError "Too few parameter values were provided".

(** One value for the next [?], of which [room] are left. The kind of the
    value is looked at first. *)
Definition bind_next (drv : driver) (room : nat) (v : jsval) : throws sqlval :=
  let! b := bind drv v in
  if room is O then inl too_many else inr b.

(** The elements of an array argument. *)
Fixpoint bind_array (drv : driver) (room : nat) (items : list jsval)
    : throws (list sqlval) :=
  match items with
  | [] => inr []
  | v :: rest =>
      let! b := bind_next drv room v in
      let! bs := bind_array drv (pred room) rest in
      inr (b :: bs)
  end.

(** The arguments, with [room] parameters left; [named] tells whether an
    object has been met. *)
Fixpoint bind_args (drv : driver) (room : nat) (named : bool) (args : list jsval)
    : throws (list sqlval) :=
  match args with
  | [] => inr []
  | JArr items :: rest =>
      let! bs := bind_array drv room items in
      let! cs := bind_args drv (room - length bs) named rest in
      inr (bs ++ cs)%list
  | JObj _ :: rest =>
      if named
      then inl (TypeError "You cannot specify named parameters in two different objects")
      else bind_args drv room true rest
  | v :: rest =>
      let! b := bind_next drv room v in
      let! cs := bind_args drv (pred room) named rest in
      inr (b :: cs)
  end.

(** What a statement with [n] parameters is run with, for the arguments
    [args]. *)
Definition parameters (drv : driver) (n : nat) (args : list jsval) : throws (list sqlval) :=
  let! bound := bind_args drv n false args in
  if (length bound <? n)%nat then inl too_few else inr bound.

(** The value of the [i]-th parameter, counted from 0. *)
Definition arg (i : nat) (bound : list sqlval) : sqlval := nth i bound SNull.

(** What the driver returns for a column value. *)
Definition column (v : sqlval) : jsval :=
  match v with
  | SNull => JNull
  | SNum n => JNum n
  | SText s => JStr s
  end.

(** SQL [a = b] as a WHERE or ON condition, for two values as they are
    stored: NULL matches nothing, numbers compare by value, texts byte by
    byte, and a number is no text. Where a statement compares a column with
    a parameter, SQLite gives the parameter the affinity of the column first,
    which is left out here (see [sqlval]). *)
Definition sql_eq (a b : sqlval) : bool :=
  match a, b with
  | SNum x, SNum y => Qeq_bool (num_value x) (num_value y)
  | SText s, SText t => String.eqb s t
  | _, _ => false
  end.

(** [id = v] for an INTEGER PRIMARY KEY [id]. *)
Definition is_id (id : Z) (v : sqlval) : bool := sql_eq (SNum (int id)) v.

(** [x IN (...)] as a CHECK constraint on a TEXT column: the constraint
    holds when the expression is true or NULL. A number is compared as its
    text, which is none of the listed words. *)
Definition check_in (words : list string) (v : sqlval) : bool :=
  match v with
  | SNull => true
  | SText s => existsb (String.eqb s) words
  | SNum _ => false
  end.

(** [CURRENT_TIMESTAMP]: the text [YYYY-MM-DD HH:MM:SS]. *)
Definition timestamp := string.

(** A table with an [INTEGER PRIMARY KEY AUTOINCREMENT] id: its rows in
    rowid order and the largest id ever assigned. No handler deletes a row. *)
Record table (row : Type) := Table { rows : list row; last_id : Z }.
Arguments Table {row}.
Arguments rows {row}.
Arguments last_id {row}.

Definition empty_table {row} : table row := Table [] 0.

(** [INSERT]: the new row gets the next id. *)
Definition append {row} (t : table row) (mk : Z -> row) : table row * Z :=
  let id := last_id t + 1 in
  (Table (rows t ++ [mk id]) id, id).

Record user_row := UserRow {
  u_id : Z;
  u_email : sqlval;
  u_password : sqlval;
  u_full_name : sqlval;
  u_role : sqlval;
  u_street_name : sqlval;
  u_house_number : sqlval;
  u_ward_no : sqlval;
  u_age : sqlval;
  u_created_at : timestamp
}.

Record symptom_log := SymptomLog {
  s_id : Z;
  s_user_id : sqlval;
  s_symptoms : sqlval;
  s_problem_type : sqlval;
  s_severity : sqlval;
  s_latitude : sqlval;
  s_longitude : sqlval;
  s_status : string;
  s_created_at : timestamp
}.

Record vital_record := VitalRecord {
  v_id : Z;
  v_user_id : sqlval;
  v_temperature : sqlval;
  v_heart_rate : sqlval;
  v_blood_pressure : sqlval;
  v_oxygen_level : sqlval;
  v_created_at : timestamp
}.

(** [symptom_log_id] is always bound from [lastInsertRowid], an integer. *)
Record ai_prediction := AiPrediction {
  p_id : Z;
  p_symptom_log_id : Z;
  p_predicted_disease : sqlval;
  p_confidence : sqlval;
  p_risk_level : sqlval;
  p_recommended_action : sqlval;
  p_created_at : timestamp
}.

Record infrastructure_layer := InfrastructureLayer {
  i_id : Z;
  i_type : sqlval;
  i_name : sqlval;
  i_latitude : sqlval;
  i_longitude : sqlval;
  i_status : sqlval
}.

Record emergency_alert := EmergencyAlert {
  a_id : Z;
  a_type : sqlval;
  a_message : sqlval;
  a_latitude : sqlval;
  a_longitude : sqlval;
  a_status : sqlval;
  a_created_at : timestamp
}.

(** The tables the handlers touch. [user_roles], [geo_locations],
    [government_reports] and [audit_logs] are created and never used. *)
Record database := Database {
  users : table user_row;
  symptom_logs : table symptom_log;
  vital_records : table vital_record;
  ai_predictions : table ai_prediction;
  infrastructure_layers : table infrastructure_layer;
  emergency_alerts : table emergency_alert
}.

(** The database after [db.exec] has created the schema in a new file. *)
Definition empty_db : database :=
  Database empty_table empty_table empty_table empty_table empty_table empty_table.

(** ** Statements *)

(** The rows of [t] that satisfy a WHERE or ON condition. *)
Definition select {row} (cond : row -> bool) (t : table row) : list row :=
  List.filter cond (rows t).

(** [INSERT INTO users]: [role] has a CHECK, [email] is UNIQUE (NULLs are
    distinct from one another). The values are stored as they are bound (see
    [sqlval]). *)
Definition insert_user (now : timestamp) (db : database)
    (email password full_name role street_name house_number ward_no age : sqlval)
    : throws (database * Z) :=
  if negb (check_in ["citizen"; "asha"; "government"] role) then
    inl (SqliteError "CHECK constraint failed: role IN ('citizen', 'asha', 'government')")
  else if existsb (fun u => sql_eq (u_email u) email) (rows (users db)) then
    inl (SqliteError "UNIQUE constraint failed: users.email")
  else
    let (t, id) := append (users db) (fun id =>
      UserRow id email password full_name role street_name house_number ward_no age now) in
    inr (Database t (symptom_logs db) (vital_records db) (ai_predictions db)
                  (infrastructure_layers db) (emergency_alerts db), id).

(** [INSERT INTO symptom_logs]: [problem_type] has a CHECK, [user_id]
    references [users(id)], [status] takes its default. A statement that
    fails changes nothing. The values are stored, and the reporter looked up,
    as they are bound (see [sqlval]). *)
Definition insert_symptom_log (drv : driver) (now : timestamp) (db : database)
    (user_id symptoms severity latitude longitude problem_type : sqlval)
    : throws (database * Z) :=
  if negb (check_in ["disease"; "drainage"; "other"] problem_type) then
    inl (SqliteError "CHECK constraint failed: problem_type IN ('disease', 'drainage', 'other')")
  else if foreign_keys drv
          && negb (if user_id is SNull then true
                   else existsb (fun u => is_id (u_id u) user_id) (rows (users db))) then
    inl (SqliteError "FOREIGN KEY constraint failed")
  else
    let (t, id) := append (symptom_logs db) (fun id =>
      SymptomLog id user_id symptoms problem_type severity latitude longitude "active" now) in
    inr (Database (users db) t (vital_records db) (ai_predictions db)
                  (infrastructure_layers db) (emergency_alerts db), id).

(** [INSERT INTO ai_predictions]: [symptom_log_id] references
    [symptom_logs(id)]. The values are stored as they are bound (see
    [sqlval]). *)
Definition insert_ai_prediction (drv : driver) (now : timestamp) (db : database)
    (symptom_log_id : Z) (predicted_disease confidence risk_level recommended_action : sqlval)
    : throws database :=
  if foreign_keys drv
     && negb (existsb (fun s => Z.eqb (s_id s) symptom_log_id) (rows (symptom_logs db))) then
    inl (SqliteError "FOREIGN KEY constraint failed")
  else
    let (t, _) := append (ai_predictions db) (fun id =>
      AiPrediction id symptom_log_id predicted_disease confidence risk_level
                   recommended_action now) in
    inr (Database (users db) (symptom_logs db) (vital_records db) t
                  (infrastructure_layers db) (emergency_alerts db)).

(** [INSERT INTO emergency_alerts]: no constraint; [status] takes its
    default. *)
Definition insert_emergency_alert (now : timestamp) (db : database)
    (type message latitude longitude : sqlval) : database :=
  let (t, _) := append (emergency_alerts db) (fun id =>
    EmergencyAlert id type message latitude longitude (SText "active") now) in
  Database (users db) (symptom_logs db) (vital_records db) (ai_predictions db)
           (infrastructure_layers db) t.

(** [UPDATE symptom_logs SET status = 'solved' WHERE id = ?]. The new status
    satisfies the column's CHECK, so the statement does not fail. *)
Definition update_solved (db : database) (id : sqlval) : throws database :=
  let t := Table (List.map (fun s =>
      if is_id (s_id s) id then
        SymptomLog (s_id s) (s_user_id s) (s_symptoms s) (s_problem_type s) (s_severity s)
                   (s_latitude s) (s_longitude s) "solved" (s_created_at s)
      else s) (rows (symptom_logs db))) (last_id (symptom_logs db)) in
  inr (Database (users db) t (vital_records db) (ai_predictions db)
                (infrastructure_layers db) (emergency_alerts db)).

(** [ORDER BY created_at DESC]: the timestamps are texts of one width and
    compare byte by byte. In which order rows of the same second come is up
    to SQLite; the model takes the order the merge sort gives. *)
Definition newer_first {row} (created_at : row -> timestamp) (a b : row) : Prop :=
  String.leb (created_at b) (created_at a) = true.

#[global] Instance newer_first_dec {row} (created_at : row -> timestamp) (a b : row) :
  Decision (newer_first created_at a b).
Proof. unfold newer_first. apply _. Defined.

Definition order_by_created_at_desc {row} (created_at : row -> timestamp)
    (l : list row) : list row :=
  merge_sort (newer_first created_at) l.

(** ** Responses *)

(** What a handler leaves behind: a reply sent with [res.json], or an
    exception that escaped it (for an [async] handler, a rejected promise);
    what Express then does with the request is not the handler's doing. *)
Inductive outcome :=
| replied (status : Z) (body : jsval)
| uncaught (e : error).

Definition is_undefined (v : jsval) : bool :=
  if v is JUndefined then true else false.

(** The body [res.json(obj)] sends for an object literal: [JSON.stringify]
    leaves out the properties whose value is [undefined]. *)
Definition json (props : list (string * jsval)) : jsval :=
  JObj (List.filter (fun kv => negb (is_undefined (snd kv))) props).

Definition symptom_log_columns (s : symptom_log) : list (string * jsval) :=
  [("id", JNum (int (s_id s)));
   ("user_id", column (s_user_id s));
   ("symptoms", column (s_symptoms s));
   ("problem_type", column (s_problem_type s));
   ("severity", column (s_severity s));
   ("latitude", column (s_latitude s));
   ("longitude", column (s_longitude s));
   ("status", JStr (s_status s));
   ("created_at", JStr (s_created_at s))].

Definition user_columns (u : user_row) : list (string * jsval) :=
  [("id", JNum (int (u_id u)));
   ("email", column (u_email u));
   ("password", column (u_password u));
   ("full_name", column (u_full_name u));
   ("role", column (u_role u));
   ("street_name", column (u_street_name u));
   ("house_number", column (u_house_number u));
   ("ward_no", column (u_ward_no u));
   ("age", column (u_age u));
   ("created_at", JStr (u_created_at u))].

Definition vital_record_columns (v : vital_record) : list (string * jsval) :=
  [("id", JNum (int (v_id v)));
   ("user_id", column (v_user_id v));
   ("temperature", column (v_temperature v));
   ("heart_rate", column (v_heart_rate v));
   ("blood_pressure", column (v_blood_pressure v));
   ("oxygen_level", column (v_oxygen_level v));
   ("created_at", JStr (v_created_at v))].

Definition infrastructure_layer_columns (i : infrastructure_layer) : list (string * jsval) :=
  [("id", JNum (int (i_id i)));
   ("type", column (i_type i));
   ("name", column (i_name i));
   ("latitude", column (i_latitude i));
   ("longitude", column (i_longitude i));
   ("status", column (i_status i))].

Definition emergency_alert_columns (a : emergency_alert) : list (string * jsval) :=
  [("id", JNum (int (a_id a)));
   ("type", column (a_type a));
   ("message", column (a_message a));
   ("latitude", column (a_latitude a));
   ("longitude", column (a_longitude a));
   ("status", column (a_status a));
   ("created_at", JStr (a_created_at a))].

(** [a LEFT JOIN b ON cond]: every match of [a] in [b], or [a] alone. *)
Definition left_join {A B} (cond : A -> B -> bool) (l : list A) (r : list B)
    : list (A * option B) :=
  List.flat_map (fun a =>
    match List.filter (cond a) r with
    | [] => [(a, None)]
    | matches => List.map (fun b => (a, Some b)) matches
    end) l.

(** A column of the right-hand side of a LEFT JOIN: NULL without a match. *)
Definition joined {B} (f : B -> sqlval) (b : option B) : jsval :=
  column (from_option f SNull b).

(** ** The route handlers of [server.ts] *)

(** [POST /api/auth/signup] *)
Definition signup (drv : driver) (now : timestamp) (db : database) (body : jsval)
    : database * outcome :=
  match
    (let! email := get body "email" in
     let! password := get body "password" in
     let! fullName := get body "fullName" in
     let! role := get body "role" in
     let! streetName := get body "streetName" in
     let! houseNumber := get body "houseNumber" in
     let! wardNo := get body "wardNo" in
     let! age := get body "age" in
     inr (email, password, fullName, role, streetName, houseNumber, wardNo, age))
  with
  | inl e => (db, uncaught e)
  | inr (email, password, fullName, role, streetName, houseNumber, wardNo, age) =>
      match
        (let! bound := parameters drv 8 [email; password; fullName; role; streetName;
                                         houseNumber; wardNo; age] in
         insert_user now db (arg 0 bound) (arg 1 bound) (arg 2 bound) (arg 3 bound)
                     (arg 4 bound) (arg 5 bound) (arg 6 bound) (arg 7 bound))
      with
      | inr (db', id) =>
          (db', replied 200 (json [("id", JNum (int id)); ("email", email);
                                   ("fullName", fullName); ("role", role);
                                   ("streetName", streetName);
                                   ("houseNumber", houseNumber);
                                   ("wardNo", wardNo); ("age", age)]))
      | inl _ => (db, replied 400 (json [("error", JStr "Email already exists")]))
      end
  end.

(** [POST /api/auth/login] *)
Definition login (drv : driver) (db : database) (body : jsval) : outcome :=
  match
    (let! email := get body "email" in
     let! password := get body "password" in
     let! bound := parameters drv 2 [email; password] in
     inr (select (fun u => sql_eq (u_email u) (arg 0 bound)
                            && sql_eq (u_password u) (arg 1 bound)) (users db)))
  with
  | inl e => uncaught e
  | inr (user :: _) => replied 200 (JObj (user_columns user))
  | inr [] => replied 401 (json [("error", JStr "Invalid credentials")])
  end.

(** *** [POST /api/symptoms] *)

(** The handler suspended at [await ai.models.generateContent(...)]: the
    prompt it sent and the variables the rest of the handler still reads. *)
Record pending := Pending {
  symptomLogId : Z;
  latitude : jsval;
  longitude : jsval;
  contents : string
}.

(** How the handler's first phase ends: with an exception out of the
    destructuring or the INSERT, which stand outside the [try], or suspended
    on the classifier. No reply has been sent in either case. *)
Inductive begun :=
| threw (e : error)
| awaiting (db : database) (call : pending).

(** Lines 146 to 170. [currentTime] is [new Date().toLocaleString()]. *)
Definition symptoms_begin (drv : driver) (now : timestamp) (currentTime : string)
    (db : database) (body : jsval) : begun :=
  match
    (let! userId := get body "userId" in
     let! symptoms := get body "symptoms" in
     let! severity := get body "severity" in
     let! latitude := get body "latitude" in
     let! longitude := get body "longitude" in
     let! problemType := get body "problemType" in
     let! bound := parameters drv 6 [userId; symptoms; severity; latitude; longitude;
                                     problemType] in
     let! (db', id) := insert_symptom_log drv now db (arg 0 bound) (arg 1 bound)
                                          (arg 2 bound) (arg 3 bound) (arg 4 bound)
                                          (arg 5 bound) in
     inr (db', Pending id latitude longitude
         ("Analyze these symptoms: " ++ ToString symptoms ++
          ". Severity: " ++ ToString severity ++
          "/10. Problem Type: " ++ ToString problemType ++
          ". Reported at: " ++ currentTime ++
          ". Predict the likely disease, confidence (0-1), risk level (Low, Medium, High, Critical), and recommended action. Return JSON.")))
  with
  | inl e => threw e
  | inr (db', call) => awaiting db' call
  end.

(** How the awaited call settles. [rejected] stands for any exception out of
    lines 152 to 170: the service is unreachable, times out or refuses.
    [fulfilled parsed] is a response, given by what [JSON.parse(response.text)]
    makes of it: a value, or the exception it throws on a text that is not
    JSON. *)
Inductive ai_result :=
| rejected (e : error)
| fulfilled (parsed : throws jsval).

(** The values one INSERT into [ai_predictions] takes from a response. *)
Record assessment := Assessment {
  predicted_disease : sqlval;
  confidence : sqlval;
  risk_level : sqlval;
  recommended_action : sqlval
}.

(** Lines 172 to 178, up to the execution of the INSERT: parse the response,
    read the four properties and bind them. This is all the handler does to
    turn a response into an assessment; it throws when the call was
    rejected, the text is not JSON, the parsed value is [null], or the four
    properties do not make four parameters. The first argument of [run],
    [symptomLogId], is a number: it takes the first of the five [?] and leaves
    four. *)
Definition classified (drv : driver) (r : ai_result) : throws (jsval * assessment) :=
  match r with
  | rejected e => inl e
  | fulfilled parsed =>
      let! prediction := parsed in
      let! predicted_disease := get prediction "predicted_disease" in
      let! confidence := get prediction "confidence" in
      let! risk_level := get prediction "risk_level" in
      let! recommended_action := get prediction "recommended_action" in
      let! bound := parameters drv 4 [predicted_disease; confidence; risk_level;
                                      recommended_action] in
      inr (prediction, Assessment (arg 0 bound) (arg 1 bound) (arg 2 bound) (arg 3 bound))
  end.

(** Lines 172 to 179: the prediction is inserted as it was read. *)
Definition store_prediction (drv : driver) (now : timestamp) (db : database)
    (call : pending) (r : ai_result) : throws (database * jsval) :=
  let! (prediction, a) := classified drv r in
  let! db' := insert_ai_prediction drv now db (symptomLogId call) (predicted_disease a)
                                   (confidence a) (risk_level a) (recommended_action a) in
  inr (db', prediction).

(** Lines 181 to 188: the alert, for a prediction that has been stored. An
    exception here would leave the stored prediction in place: the statements
    share no transaction. *)
Definition raise_alert (drv : driver) (now : timestamp) (db : database)
    (call : pending) (prediction : jsval) : throws database :=
  let! risk_level := get prediction "risk_level" in
  if strict_eq_str risk_level "Critical" || strict_eq_str risk_level "High" then
    let! predicted_disease := get prediction "predicted_disease" in
    let! bound := parameters drv 4
                    [JStr "Disease Outbreak";
                     JStr ("High risk of " ++ ToString predicted_disease
                           ++ " detected in your area.");
                     latitude call; longitude call] in
    inr (insert_emergency_alert now db (arg 0 bound) (arg 1 bound) (arg 2 bound)
                                (arg 3 bound))
  else inr db.

Record result := Result {
  res_db : database;
  res_console : list error;
  res_out : outcome
}.

(** Lines 172 to 194, run when the call has settled, on the database as it
    is then. [res_console] is what [console.error] printed. *)
Definition symptoms_resume (drv : driver) (now : timestamp) (db : database)
    (call : pending) (r : ai_result) : result :=
  let caught db e :=
    Result db [e] (replied 200 (json [("symptomLogId", JNum (int (symptomLogId call)));
                                      ("prediction", JNull)])) in
  match store_prediction drv now db call r with
  | inl e => caught db e
  | inr (db1, prediction) =>
      match raise_alert drv now db1 call prediction with
      | inl e => caught db1 e
      | inr db2 =>
          Result db2 [] (replied 200 (json [("symptomLogId", JNum (int (symptomLogId call)));
                                            ("prediction", prediction)]))
      end
  end.

(** The whole handler for one request served alone: nothing else touches
    the database between its two phases. *)
Definition symptoms (drv : driver) (now : timestamp) (currentTime : string)
    (db : database) (body : jsval) (r : ai_result) : result :=
  match symptoms_begin drv now currentTime db body with
  | threw e => Result db [] (uncaught e)
  | awaiting db' call => symptoms_resume drv now db' call r
  end.

(** *** [POST /api/problems/:id/solve]

    [id] is the route parameter as SQLite compares it with the integer key:
    the number it spells, or the text itself when it spells none. *)
Definition solve (db : database) (id : sqlval) : database * outcome :=
  match update_solved db id with
  | inr db' => (db', replied 200 (json [("success", JBool true)]))
  | inl _ => (db, replied 500 (json [("error", JStr "Failed to update status")]))
  end.

(** *** [GET /api/map-data] *)

(** The first SELECT: every log with its predictions and its reporter. *)
Definition map_symptoms (db : database)
    : list (symptom_log * option ai_prediction * option user_row) :=
  left_join (fun sp u => is_id (u_id u) (s_user_id (fst sp)))
    (left_join (fun s p => Z.eqb (s_id s) (p_symptom_log_id p))
       (rows (symptom_logs db)) (rows (ai_predictions db)))
    (rows (users db)).

Definition map_point (r : symptom_log * option ai_prediction * option user_row) : jsval :=
  let '(s, p, u) := r in
  JObj (symptom_log_columns s ++
        [("predicted_disease", joined p_predicted_disease p);
         ("risk_level", joined p_risk_level p);
         ("full_name", joined u_full_name u);
         ("street_name", joined u_street_name u);
         ("house_number", joined u_house_number u);
         ("ward_no", joined u_ward_no u);
         ("age", joined u_age u)]).

Definition active_alerts (db : database) : list emergency_alert :=
  select (fun a => sql_eq (a_status a) (SText "active")) (emergency_alerts db).

(** The handler reads nothing of the request [req]. *)
Definition map_data (req : jsval) (db : database) : outcome :=
  replied 200 (json
    [("symptoms", JArr (List.map map_point (map_symptoms db)));
     ("infrastructure",
      JArr (List.map (fun i => JObj (infrastructure_layer_columns i))
                     (rows (infrastructure_layers db))));
     ("alerts", JArr (List.map (fun a => JObj (emergency_alert_columns a))
                               (active_alerts db)))]).

(** *** [GET /api/user-stats/:userId]

    Of the request [req] the handler reads [req.params.userId] alone, here
    [userId], as SQLite compares it with the [user_id] column (see
    [solve]). *)
Definition recent_logs (db : database) (userId : sqlval) : list symptom_log :=
  take 5 (order_by_created_at_desc s_created_at
            (select (fun s => sql_eq (s_user_id s) userId) (symptom_logs db))).

Definition latest_vitals (db : database) (userId : sqlval) : option vital_record :=
  head (order_by_created_at_desc v_created_at
          (select (fun v => sql_eq (v_user_id v) userId) (vital_records db))).

Definition user_stats (req : jsval) (userId : sqlval) (db : database) : outcome :=
  replied 200 (json
    [("logs", JArr (List.map (fun s => JObj (symptom_log_columns s)) (recent_logs db userId)));
     ("vitals", from_option (fun v => JObj (vital_record_columns v)) JUndefined
                            (latest_vitals db userId))]).

(** ** The server as a whole

    Node runs one handler at a time, and a handler gives way only at an
    [await]. So the server moves in atomic steps: a request is served up to
    its reply or up to the [await] of [POST /api/symptoms], or one of the
    awaited calls settles and its handler runs to its reply. *)
Record server := Server {
  store : database;
  suspended : list pending;
  invoked : list Z;
  console : list error
}.

Inductive event :=
| PostSignup (now : timestamp) (body : jsval)
| PostLogin (body : jsval)
| PostSymptoms (now : timestamp) (currentTime : string) (body : jsval)
| Settles (n : nat) (now : timestamp) (r : ai_result)
| PostSolve (id : sqlval)
| GetMapData (req : jsval)
| GetUserStats (req : jsval) (userId : sqlval).

(** [invoked] lists, oldest first, the report ids for which a handler has
    reached the call of the classifier. [Settles n] settles the call of the
    [n]-th suspended handler. A step gives the new state and the reply sent in
    it, if any. *)
Definition serve (drv : driver) (sv : server) (ev : event) : server * option outcome :=
  match ev with
  | PostSignup now body =>
      let (db, out) := signup drv now (store sv) body in
      (Server db (suspended sv) (invoked sv) (console sv), Some out)
  | PostLogin body => (sv, Some (login drv (store sv) body))
  | PostSymptoms now currentTime body =>
      match symptoms_begin drv now currentTime (store sv) body with
      | threw e => (sv, Some (uncaught e))
      | awaiting db call =>
          (Server db (suspended sv ++ [call]) (invoked sv ++ [symptomLogId call])
                  (console sv), None)
      end
  | Settles n now r =>
      match suspended sv !! n with
      | None => (sv, None)
      | Some call =>
          let res := symptoms_resume drv now (store sv) call r in
          (Server (res_db res) (delete n (suspended sv)) (invoked sv)
                  (console sv ++ res_console res), Some (res_out res))
      end
  | PostSolve id =>
      let (db, out) := solve (store sv) id in
      (Server db (suspended sv) (invoked sv) (console sv), Some out)
  | GetMapData req => (sv, Some (map_data req (store sv)))
  | GetUserStats req userId => (sv, Some (user_stats req userId (store sv)))
  end.

(** The server [startServer] starts on a new database file. *)
Definition started : server := Server empty_db [] [] [].

Definition run (drv : driver) (evs : list event) : server :=
  fold_left (fun sv ev => fst (serve drv sv ev)) evs started.


(** The report with id [id], if there is one. *)
Definition report (id : Z) (db : database) : option symptom_log :=
  head (select (fun s => Z.eqb (s_id s) id) (symptom_logs db)).

(** ** The map popup of [App.tsx] *)

(** An object of the fetched JSON, by its properties. *)
Definition object := list (string * jsval).

Definition prop (o : object) (name : string) : jsval :=
  default JUndefined (assoc name o).

(** [a || b] *)
Definition truthy (v : jsval) : bool :=
  match v with
  | JUndefined | JNull => false
  | JBool b => b
  | JNum n => negb (Qeq_bool (num_value n) 0)
  | JStr s => negb (String.eqb s "")
  | JArr _ | JObj _ => true
  end.

Definition or_else (a b : jsval) : jsval := if truthy a then a else b.

(** The "Patient Details" block of a marker's popup. *)
Record patient_details := PatientDetails {
  shown_full_name : jsval;
  shown_age : jsval;
  shown_house_number : jsval;
  shown_street_name : jsval;
  shown_ward_no : jsval;
  mark_as_solved : bool
}.

Record popup := Popup {
  heading : jsval;
  badge : jsval;
  description : jsval;
  reported_at : jsval;
  details : option patient_details
}.

(** [user?.role === role], for the [user] state, [null] before login. *)
Definition has_role (user : option object) (role : string) : bool :=
  match user with
  | None => false
  | Some u => strict_eq_str (prop u "role") role
  end.

(** Lines 553 to 574, for the logged-in [user] and a point [s] of
    [mapData.symptoms]. *)
Definition marker_popup (user : option object) (s : object) : popup :=
  Popup (or_else (prop s "predicted_disease") (prop s "problem_type"))
        (prop s "status")
        (prop s "symptoms")
        (prop s "created_at")
        (if has_role user "asha" || has_role user "government" then
           Some (PatientDetails (prop s "full_name") (prop s "age")
                                (prop s "house_number") (prop s "street_name")
                                (prop s "ward_no")
                                (has_role user "asha"
                                 && strict_eq_str (prop s "status") "active"))
         else None).

(** ** What the specification asks for

    The conditions the specification puts on a submission and on a
    classifier response, in its own words; the handlers contain neither. *)

Definition is_integer (q : Q) : bool := Qeq_bool q (inject_Z (Qfloor q)).

Definition within (lo hi : Q) (v : jsval) : bool :=
  match v with
  | JNum n => Qle_bool lo (num_value n) && Qle_bool (num_value n) hi
  | _ => false
  end.

(** "description non-empty" *)
Definition spec_description_ok (v : jsval) : bool :=
  match v with
  | JStr s => negb (String.eqb s "")
  | _ => false
  end.

(** "severity integer in range", the range being 1 to 10 inclusive *)
Definition spec_severity_ok (v : jsval) : bool :=
  match v with
  | JNum n => is_integer (num_value n) && within 1 10 v
  | _ => false
  end.

(** "category is one of the three tags" *)
Definition spec_category_ok (v : jsval) : bool :=
  strict_eq_str v "disease" || strict_eq_str v "drainage" || strict_eq_str v "other".

(** "location has both coordinates present and within valid
    latitude/longitude bounds" *)
Definition spec_location_ok (lat lng : jsval) : bool :=
  within (-90) 90 lat && within (-180) 180 lng.

Definition spec_valid_submission (body : jsval) : bool :=
  spec_description_ok (get_opt body "symptoms")
  && spec_severity_ok (get_opt body "severity")
  && spec_category_ok (get_opt body "problemType")
  && spec_location_ok (get_opt body "latitude") (get_opt body "longitude").


(** A property of the handlers that holds however the driver is set up. *)
Definition every_driver (P : driver -> Prop) : Prop :=
  P (Driver false false) /\ P (Driver false true)
  /\ P (Driver true false) /\ P (Driver true true).

(** ** Values of the expected kind

    What the columns are declared for, and what the classifier is asked for
    through [responseSchema]: a text or a number, or none. These are the
    values that SQLite stores as they are bound (see [sqlval]). *)

Definition textual (v : jsval) : bool :=
  match v with
  | JStr _ | JNull | JUndefined => true
  | _ => false
  end.

Definition numeric (v : jsval) : bool :=
  match v with
  | JNum _ | JNull | JUndefined => true
  | _ => false
  end.

(** A submission whose fields are of the kind of their columns. *)
Definition typed_report (body : jsval) : bool :=
  numeric (get_opt body "userId")
  && textual (get_opt body "symptoms")
  && numeric (get_opt body "severity")
  && numeric (get_opt body "latitude")
  && numeric (get_opt body "longitude")
  && textual (get_opt body "problemType").

(** A response whose properties are of the kind of their columns. *)
Definition typed_response (prediction : jsval) : bool :=
  textual (get_opt prediction "predicted_disease")
  && numeric (get_opt prediction "confidence")
  && textual (get_opt prediction "risk_level")
  && textual (get_opt prediction "recommended_action").


(** ** A database to try the handlers on *)

Definition num (q : Q) (text : string) : jsval := JNum (Number q text).

(** One citizen has signed up. *)
Definition ravi : user_row :=
  UserRow 1 (SText "ravi@example.org") (SText "secret") (SText "Ravi Kumar")
          (SText "citizen") (SText "MG Road") (SText "12-4") (SText "7")
          (SNum (Number 34 "34")) "2026-03-01 09:00:00".

Definition one_user : database :=
  Database (Table [ravi] 1) empty_table empty_table empty_table empty_table empty_table.

(** A report as the form of [App.tsx] posts it. *)
Definition fever_report (severity : jsval) : jsval :=
  JObj [("userId", num 1 "1"); ("symptoms", JStr "High fever, dry cough");
        ("severity", severity); ("latitude", num 12.9 "12.9");
        ("longitude", num 77.6 "77.6"); ("problemType", JStr "disease")].

Definition dengue (risk : string) : jsval :=
  JObj [("predicted_disease", JStr "Dengue"); ("confidence", num 0.9 "0.9");
        ("risk_level", JStr risk); ("recommended_action", JStr "See a doctor")].

(** * Properties *)

(** ** Reading and binding values *)

Ltac split_throws :=
  repeat match goal with
         | H : context [bind_throws ?m _] |- _ =>
             let E := fresh "E" in destruct m eqn:E; simpl in H; try discriminate H
         | H : context [let (_, _) := ?p in _] |- _ => destruct p
         end.

Lemma get_some v name x : get v name = inr x -> v <> JUndefined /\ v <> JNull.
Proof. destruct v; simpl; intros H; try discriminate H; split; discriminate. Qed.

Lemma get_opt_get v name x : get v name = inr x -> get_opt v name = x.
Proof. unfold get_opt. now intros ->. Qed.

(** ** The parameters of a statement *)

Lemma bind_scalar drv v b : bind drv v = inr b -> scalar v = true.
Proof. destruct v; simpl; intros H; try discriminate H; reflexivity. Qed.

Lemma bind_next_inr drv room v b :
  bind_next drv room v = inr b -> bind drv v = inr b /\ (0 < room)%nat.
Proof.
  unfold bind_next. destruct (bind drv v) as [e | b']; simpl; [discriminate |].
  destruct room; [discriminate |]. intros [= ->]. split; [reflexivity | lia].
Qed.

Lemma bind_args_scalar drv room named v rest :
  scalar v = true ->
  bind_args drv room named (v :: rest)
  = (let! b := bind_next drv room v in
     let! cs := bind_args drv (pred room) named rest in
     inr (b :: cs)).
Proof. destruct v; simpl; intros H; try discriminate H; reflexivity. Qed.

Lemma bind_array_length drv room items bs :
  bind_array drv room items = inr bs -> (length bs <= room)%nat.
Proof.
  revert room bs. induction items as [| v items IH]; simpl; intros room bs H.
  - injection H as <-. simpl. lia.
  - destruct (bind_next drv room v) as [e | b] eqn:B; simpl in H; [discriminate |].
    apply bind_next_inr in B as [_ Hroom].
    destruct (bind_array drv (pred room) items) as [e | bs'] eqn:A; simpl in H;
      [discriminate |].
    injection H as <-. apply IH in A. simpl. lia.
Qed.

Lemma bind_args_length drv room named args bound :
  bind_args drv room named args = inr bound -> (length bound <= room)%nat.
Proof.
  revert room named bound.
  induction args as [| v args IH]; intros room named bound H.
  - injection H as <-. simpl. lia.
  - destruct v as [| | bo | nu | st | items | props];
      try (rewrite bind_args_scalar in H by reflexivity;
      destruct (bind_next drv room _) as [e | b] eqn:B; simpl in H; [discriminate |];
      apply bind_next_inr in B as [_ Hroom];
      destruct (bind_args drv (pred room) named args) as [e | cs] eqn:A; simpl in H;
        [discriminate |];
      injection H as <-; apply IH in A; simpl; lia).
    + simpl in H.
      destruct (bind_array drv room items) as [e | bs] eqn:B; simpl in H; [discriminate |].
      destruct (bind_args drv (room - length bs) named args) as [e | cs] eqn:A; simpl in H;
        [discriminate |].
      injection H as <-. apply bind_array_length in B. apply IH in A.
      rewrite length_app. lia.
    + simpl in H. destruct named; [discriminate |]. now apply IH in H.
Qed.

(** A statement is run with as many values as it has parameters. *)
Lemma parameters_length drv n args bound :
  parameters drv n args = inr bound -> length bound = n.
Proof.
  unfold parameters. destruct (bind_args drv n false args) as [e | b] eqn:A; simpl;
    [discriminate |].
  apply bind_args_length in A.
  destruct (Nat.ltb_spec (length b) n); [discriminate |]. intros [= <-]. lia.
Qed.

(** A value that is bound, in front of the others, takes the first
    parameter. *)
Lemma parameters_cons drv n v b rest :
  bind drv v = inr b ->
  parameters drv (S n) (v :: rest)
  = (let! cs := parameters drv n rest in inr (b :: cs)).
Proof.
  intros B. unfold parameters.
  rewrite bind_args_scalar by (eapply bind_scalar; eassumption).
  unfold bind_next. rewrite B. simpl.
  destruct (bind_args drv n false rest) as [e | cs]; simpl; [reflexivity |].
  change (S (length cs) <? S n)%nat with (length cs <? n)%nat.
  now destruct (length cs <? n)%nat.
Qed.

(** Values that are bound one by one are the parameters, in their order. *)
Lemma parameters_bound drv n args bs :
  Forall2 (fun v b => bind drv v = inr b) args bs ->
  length args = n ->
  parameters drv n args = inr bs.
Proof.
  intros H <-. induction H as [| v b args bs B _ IH]; simpl; [reflexivity |].
  rewrite (parameters_cons _ _ _ _ _ B), IH. reflexivity.
Qed.

(** And conversely, when none of the arguments is an array or an object. *)
Lemma parameters_scalars drv args bound :
  parameters drv (length args) args = inr bound ->
  Forall (fun v => scalar v = true) args ->
  Forall2 (fun v b => bind drv v = inr b) args bound.
Proof.
  intros H Hs. revert bound H.
  induction Hs as [| v args Hv _ IH]; intros bound H.
  - apply parameters_length in H. destruct bound; [constructor | discriminate].
  - simpl in H. destruct (bind drv v) as [e | b] eqn:B.
    + unfold parameters in H. rewrite bind_args_scalar in H by assumption.
      unfold bind_next in H. rewrite B in H. discriminate.
    + rewrite (parameters_cons _ _ _ _ _ B) in H.
      destruct (parameters drv (length args) args) as [e | cs] eqn:P; simpl in H;
        [discriminate |].
      injection H as <-. constructor; [assumption | now apply IH].
Qed.

(** Whatever the other arguments are, an argument that is no array and no
    object has been bound as a value when the statement runs. *)
Lemma bind_args_in drv room named args bound v :
  bind_args drv room named args = inr bound ->
  In v args -> scalar v = true -> exists b, bind drv v = inr b.
Proof.
  revert room named bound.
  induction args as [| x args IH]; intros room named bound H Hin Hv; [destruct Hin |].
  assert (K : forall room' named' cs,
             bind_args drv room' named' args = inr cs -> In v args ->
             exists b, bind drv v = inr b) by eauto.
  destruct x as [| | bo | nu | st | items | props];
    try (rewrite bind_args_scalar in H by reflexivity;
      destruct (bind_next drv room _) as [e | b] eqn:B; simpl in H; [discriminate |];
      apply bind_next_inr in B as [B _];
      destruct (bind_args drv (pred room) named args) as [e | cs] eqn:A; simpl in H;
        [discriminate |];
      destruct Hin as [<- | Hin]; eauto).
  - simpl in H.
    destruct (bind_array drv room items) as [e | bs] eqn:B; simpl in H; [discriminate |].
    destruct (bind_args drv (room - length bs) named args) as [e | cs] eqn:A; simpl in H;
      [discriminate |].
    destruct Hin as [<- | Hin]; [discriminate Hv | eauto].
  - simpl in H. destruct named; [discriminate |].
    destruct Hin as [<- | Hin]; [discriminate Hv | eauto].
Qed.

Lemma parameters_in drv n args bound v :
  parameters drv n args = inr bound ->
  In v args -> scalar v = true -> exists b, bind drv v = inr b.
Proof.
  unfold parameters. destruct (bind_args drv n false args) as [e | b] eqn:A; simpl;
    [discriminate |].
  intros _. now apply bind_args_in with (1 := A).
Qed.

Lemma bind_args_last drv room named args v bound :
  bind_args drv room named (args ++ [v]) = inr bound ->
  scalar v = true ->
  exists front b, bound = (front ++ [b])%list /\ bind drv v = inr b.
Proof.
  intros H Hv. revert room named bound H.
  induction args as [| x args IH]; intros room named bound H.
  - simpl app in H. rewrite bind_args_scalar in H by assumption.
    destruct (bind_next drv room v) as [e | b] eqn:B; simpl in H; [discriminate |].
    injection H as <-. apply bind_next_inr in B as [B _]. exists [], b. now split.
  - rewrite <- app_comm_cons in H.
    destruct x as [| | bo | nu | st | items | props];
    try (rewrite bind_args_scalar in H by reflexivity;
      destruct (bind_next drv room _) as [e | b0] eqn:B; simpl in H; [discriminate |];
      destruct (bind_args drv (pred room) named (args ++ [v])) as [e | cs] eqn:A;
        simpl in H; [discriminate |];
      injection H as <-; apply IH in A as (front & b & -> & Bv);
      exists (b0 :: front), b; now split).
    + simpl in H.
      destruct (bind_array drv room items) as [e | bs] eqn:B; simpl in H; [discriminate |].
      destruct (bind_args drv (room - length bs) named (args ++ [v])) as [e | cs] eqn:A;
        simpl in H; [discriminate |].
      injection H as <-. apply IH in A as (front & b & -> & Bv).
      exists (bs ++ front)%list, b. split; [now rewrite app_assoc | assumption].
    + simpl in H. destruct named; [discriminate |]. now apply IH in H.
Qed.

(** The last argument, when it is no array and no object, is the last
    parameter, whatever stands before it. *)
Lemma parameters_last drv n args v bound :
  parameters drv (S n) (args ++ [v]) = inr bound ->
  scalar v = true ->
  bind drv v = inr (arg n bound).
Proof.
  intros H Hv. pose proof (parameters_length _ _ _ _ H) as Hlen.
  unfold parameters in H.
  destruct (bind_args drv (S n) false (args ++ [v])) as [e | b] eqn:A; simpl in H;
    [discriminate |].
  destruct (length b <? S n)%nat; [discriminate |]. injection H as <-.
  apply bind_args_last in A as (front & x & -> & B); [| assumption].
  rewrite length_app in Hlen. simpl in Hlen.
  assert (n = length front) as -> by lia.
  unfold arg. now rewrite nth_middle.
Qed.


(** The values a statement was run with, one name for each. *)
Ltac name_parameters H :=
  match type of H with
  | parameters _ _ _ = inr ?l =>
      let Hlen := fresh "Hlen" in
      pose proof (parameters_length _ _ _ _ H) as Hlen;
      repeat (destruct l as [| ? l]; simpl in Hlen; try discriminate Hlen);
      clear Hlen
  end.

Lemma classified_reads drv r prediction a :
  classified drv r = inr (prediction, a) ->
  r = fulfilled (inr prediction)
  /\ exists d c l act,
       get prediction "predicted_disease" = inr d
       /\ get prediction "confidence" = inr c
       /\ get prediction "risk_level" = inr l
       /\ get prediction "recommended_action" = inr act
       /\ parameters drv 4 [d; c; l; act]
          = inr [predicted_disease a; confidence a; risk_level a; recommended_action a].
Proof.
  destruct r as [e | [e | p]]; simpl; intros H; try discriminate H.
  split_throws. injection H as <- <-. split; [reflexivity |].
  match goal with P : parameters _ _ _ = inr _ |- _ => name_parameters P end.
  simpl. eauto 10.
Qed.

(** A response whose four properties are neither arrays nor objects: they
    are bound one by one. *)
Definition plain_response (prediction : jsval) : bool :=
  scalar (get_opt prediction "predicted_disease")
  && scalar (get_opt prediction "confidence")
  && scalar (get_opt prediction "risk_level")
  && scalar (get_opt prediction "recommended_action").

Lemma textual_scalar v : textual v = true -> scalar v = true.
Proof. now destruct v. Qed.

Lemma numeric_scalar v : numeric v = true -> scalar v = true.
Proof. now destruct v. Qed.

Lemma typed_response_plain prediction :
  typed_response prediction = true -> plain_response prediction = true.
Proof.
  unfold typed_response, plain_response. rewrite !andb_true_iff.
  intros [[[H1 H2] H3] H4].
  auto using textual_scalar, numeric_scalar.
Qed.

Lemma classified_plain drv r prediction a :
  classified drv r = inr (prediction, a) ->
  plain_response prediction = true ->
  r = fulfilled (inr prediction)
  /\ exists d c l act,
       get prediction "predicted_disease" = inr d /\ bind drv d = inr (predicted_disease a)
       /\ get prediction "confidence" = inr c /\ bind drv c = inr (confidence a)
       /\ get prediction "risk_level" = inr l /\ bind drv l = inr (risk_level a)
       /\ get prediction "recommended_action" = inr act
       /\ bind drv act = inr (recommended_action a).
Proof.
  intros C Hp. apply classified_reads in C as (-> & d & c & l & act & Gd & Gc & Gl & Ga & P).
  split; [reflexivity |]. exists d, c, l, act.
  unfold plain_response in Hp.
  rewrite (get_opt_get _ _ _ Gd), (get_opt_get _ _ _ Gc), (get_opt_get _ _ _ Gl),
    (get_opt_get _ _ _ Ga), !andb_true_iff in Hp.
  destruct Hp as [[[H1 H2] H3] H4].
  apply (parameters_scalars drv [d; c; l; act]) in P; [| now repeat constructor].
  inversion P as [| ? ? ? ? B1 P1]; subst. inversion P1 as [| ? ? ? ? B2 P2]; subst.
  inversion P2 as [| ? ? ? ? B3 P3]; subst. inversion P3 as [| ? ? ? ? B4 P4]; subst.
  auto 10.
Qed.

(** The INSERT of line 173 as it is written, with [symptomLogId] in front:
    the id takes the first parameter, the four properties the other four. *)
Lemma parameters_of_prediction drv id d c l act :
  parameters drv 5 [JNum (int id); d; c; l; act]
  = (let! bound := parameters drv 4 [d; c; l; act] in inr (SNum (int id) :: bound)).
Proof. now apply parameters_cons. Qed.

(** ** The catch branch *)


(** ** The first phase of [POST /api/symptoms] *)

(** The database with the row [s] added to [symptom_logs]. *)
Definition with_report (db : database) (s : symptom_log) : database :=
  Database (users db) (Table (rows (symptom_logs db) ++ [s]) (s_id s)) (vital_records db)
           (ai_predictions db) (infrastructure_layers db) (emergency_alerts db).

(** The reporter reference of a row satisfies the FOREIGN KEY clause. *)
Definition reporter_known (db : database) (user_id : sqlval) : bool :=
  if user_id is SNull then true
  else existsb (fun u => is_id (u_id u) user_id) (rows (users db)).

(** The field [name] of [body] is bound as [b]. *)
Definition field (drv : driver) (body : jsval) (name : string) (b : sqlval) : Prop :=
  exists v, get body name = inr v /\ bind drv v = inr b.

(** What the INSERT of line 147 stores, and when. *)
Lemma symptoms_begin_awaiting drv now ct db body db' call :
  symptoms_begin drv now ct db body = awaiting db' call ->
  exists s,
    db' = with_report db s
    /\ s_id s = last_id (symptom_logs db) + 1
    /\ symptomLogId call = s_id s
    /\ s_status s = "active"
    /\ s_created_at s = now
    /\ check_in ["disease"; "drainage"; "other"] (s_problem_type s) = true
    /\ (foreign_keys drv = true -> reporter_known db (s_user_id s) = true)
    /\ get body "latitude" = inr (latitude call)
    /\ get body "longitude" = inr (longitude call)
    /\ exists userId symptoms severity problemType,
         get body "userId" = inr userId
         /\ get body "symptoms" = inr symptoms
         /\ get body "severity" = inr severity
         /\ get body "problemType" = inr problemType
         /\ parameters drv 6 [userId; symptoms; severity; latitude call; longitude call;
                              problemType]
            = inr [s_user_id s; s_symptoms s; s_severity s; s_latitude s; s_longitude s;
                   s_problem_type s].
Proof.
  unfold symptoms_begin. intros H.
  match type of H with match ?m with _ => _ end = _ => destruct m as [e | [d c]] eqn:E end;
    try discriminate H.
  injection H as -> ->. split_throws. injection E as <- <-.
  match goal with P : parameters _ _ _ = inr _ |- _ => name_parameters P end.
  match goal with
  | I : insert_symptom_log _ _ _ _ _ _ _ _ _ = _ |- _ =>
      unfold insert_symptom_log, arg in I; cbn [nth] in I;
      destruct (check_in _ _) eqn:Hc in I; cbn [negb] in I; try discriminate I;
      destruct (foreign_keys drv && _) eqn:Hfk in I; try discriminate I;
      unfold append in I; cbv beta iota in I; injection I as <- <-
  end.
  eexists (SymptomLog _ _ _ _ _ _ _ _ _). split; [reflexivity |].
  cbn [s_id s_status s_created_at s_problem_type s_user_id s_symptoms s_severity
       s_latitude s_longitude symptomLogId latitude longitude].
  repeat match goal with |- _ /\ _ => split end; try reflexivity; try assumption.
  - intros Hon. rewrite Hon in Hfk. simpl in Hfk. unfold reporter_known.
    now apply negb_false_iff in Hfk.
  - eauto 10.
Qed.

(** A submission none of whose six fields is an array or an object. *)
Definition plain_report (body : jsval) : bool :=
  scalar (get_opt body "userId")
  && scalar (get_opt body "symptoms")
  && scalar (get_opt body "severity")
  && scalar (get_opt body "latitude")
  && scalar (get_opt body "longitude")
  && scalar (get_opt body "problemType").

Lemma typed_report_plain body : typed_report body = true -> plain_report body = true.
Proof.
  unfold typed_report, plain_report. rewrite !andb_true_iff.
  intros [[[[[H1 H2] H3] H4] H5] H6].
  auto 10 using textual_scalar, numeric_scalar.
Qed.

(** Its fields are bound one by one, each to its own column. *)
Lemma symptoms_begin_plain drv now ct db body db' call :
  symptoms_begin drv now ct db body = awaiting db' call ->
  plain_report body = true ->
  exists s,
    db' = with_report db s
    /\ s_id s = symptomLogId call
    /\ field drv body "userId" (s_user_id s)
    /\ field drv body "symptoms" (s_symptoms s)
    /\ field drv body "severity" (s_severity s)
    /\ field drv body "problemType" (s_problem_type s)
    /\ bind drv (latitude call) = inr (s_latitude s)
    /\ bind drv (longitude call) = inr (s_longitude s).
Proof.
  intros H Hp.
  apply symptoms_begin_awaiting in H
    as (s & -> & _ & Hid & _ & _ & _ & _ & Glat & Glng & u & sy & se & pt & Gu & Gsy & Gse
        & Gpt & P).
  exists s. split; [reflexivity |]. split; [easy |].
  unfold plain_report in Hp.
  rewrite (get_opt_get _ _ _ Gu), (get_opt_get _ _ _ Gsy), (get_opt_get _ _ _ Gse),
    (get_opt_get _ _ _ Glat), (get_opt_get _ _ _ Glng), (get_opt_get _ _ _ Gpt),
    !andb_true_iff in Hp.
  destruct Hp as [[[[[H1 H2] H3] H4] H5] H6].
  apply (parameters_scalars drv [u; sy; se; latitude call; longitude call; pt]) in P;
    [| now repeat constructor].
  inversion P as [| ? ? ? ? B1 P1]; subst. inversion P1 as [| ? ? ? ? B2 P2]; subst.
  inversion P2 as [| ? ? ? ? B3 P3]; subst. inversion P3 as [| ? ? ? ? B4 P4]; subst.
  inversion P4 as [| ? ? ? ? B5 P5]; subst. inversion P5 as [| ? ? ? ? B6 P6]; subst.
  unfold field. repeat split; eauto.
Qed.

(** The coordinates the handler keeps, when they are no arrays and no
    objects, are values that have been bound once, and will be again. *)
Definition plain_coordinates (body : jsval) : bool :=
  scalar (get_opt body "latitude") && scalar (get_opt body "longitude").

Definition bindable (drv : driver) (call : pending) : Prop :=
  exists lat lng,
    bind drv (latitude call) = inr lat /\ bind drv (longitude call) = inr lng.

Lemma begin_bindable drv now ct db body db' call :
  symptoms_begin drv now ct db body = awaiting db' call ->
  plain_coordinates body = true ->
  bindable drv call.
Proof.
  intros H Hp.
  apply symptoms_begin_awaiting in H
    as (s & _ & _ & _ & _ & _ & _ & _ & Glat & Glng & u & sy & se & pt & _ & _ & _ & _ & P).
  unfold plain_coordinates in Hp.
  rewrite (get_opt_get _ _ _ Glat), (get_opt_get _ _ _ Glng) in Hp.
  apply andb_true_iff in Hp as [Hlat Hlng].
  destruct (parameters_in _ _ _ _ (latitude call) P) as [lat Blat];
    [simpl; auto | assumption |].
  destruct (parameters_in _ _ _ _ (longitude call) P) as [lng Blng];
    [simpl; auto 6 | assumption |].
  unfold bindable. eauto.
Qed.

(** Conversely: a body whose six fields can be bound is stored as soon as
    the category passes the CHECK and the reporter the FOREIGN KEY; nothing
    else is looked at. *)
Lemma symptoms_begin_accepts drv now ct db body user_id symptoms severity lat lng category :
  field drv body "userId" user_id ->
  field drv body "symptoms" symptoms ->
  field drv body "severity" severity ->
  field drv body "latitude" lat ->
  field drv body "longitude" lng ->
  field drv body "problemType" category ->
  check_in ["disease"; "drainage"; "other"] category = true ->
  (foreign_keys drv = true -> reporter_known db user_id = true) ->
  exists call,
    symptoms_begin drv now ct db body
    = awaiting (with_report db (SymptomLog (last_id (symptom_logs db) + 1) user_id symptoms
                                  category severity lat lng "active" now)) call
    /\ symptomLogId call = last_id (symptom_logs db) + 1.
Proof.
  intros (v1 & G1 & B1) (v2 & G2 & B2) (v3 & G3 & B3) (v4 & G4 & B4) (v5 & G5 & B5)
         (v6 & G6 & B6) Hc Hfk.
  assert (P : parameters drv 6 [v1; v2; v3; v4; v5; v6]
              = inr [user_id; symptoms; severity; lat; lng; category])
    by (apply parameters_bound; [now repeat constructor | reflexivity]).
  unfold symptoms_begin. rewrite G1, G2, G3, G4, G5, G6. simpl.
  rewrite P. simpl.
  unfold insert_symptom_log, arg. simpl. rewrite Hc. simpl.
  replace (foreign_keys drv && _) with false.
  - simpl. eexists. split; reflexivity.
  - destruct (foreign_keys drv); [| reflexivity]. simpl.
    unfold reporter_known in Hfk. now rewrite Hfk.
Qed.

(** A category that is a value other than NULL and not one of the three
    words stops the handler at the INSERT, whatever the other fields are. *)
Lemma symptoms_begin_rejects_category drv now ct db body v :
  get body "problemType" = inr v ->
  scalar v = true ->
  (forall c, bind drv v = inr c -> check_in ["disease"; "drainage"; "other"] c = false) ->
  exists e, symptoms_begin drv now ct db body = threw e.
Proof.
  intros G Hv Hbad.
  destruct (symptoms_begin drv now ct db body) as [e | db' call] eqn:E; [eauto |].
  apply symptoms_begin_awaiting in E
    as (s & _ & _ & _ & _ & _ & Hc & _ & _ & _ & u & sy & se & pt & _ & _ & _ & Gpt & P).
  rewrite G in Gpt. injection Gpt as <-.
  apply (parameters_last drv 5 [u; sy; se; latitude call; longitude call]) in P;
    [| assumption].
  apply Hbad in P. unfold arg in P. simpl in P. congruence.
Qed.

(** [store_prediction] is [classified] followed by the INSERT. *)
Lemma store_prediction_inr drv now db call r db' prediction :
  store_prediction drv now db call r = inr (db', prediction) ->
  exists a,
    classified drv r = inr (prediction, a)
    /\ insert_ai_prediction drv now db (symptomLogId call) (predicted_disease a)
         (confidence a) (risk_level a) (recommended_action a) = inr db'.
Proof.
  unfold store_prediction. intros H.
  destruct (classified drv r) as [e | [p a]] eqn:E; simpl in H; try discriminate H.
  split_throws. injection H as <- <-. eauto.
Qed.


(** ** C2: what a submission is checked for *)

Definition march_2 : timestamp := "2026-03-02 08:00:00".
Definition march_2_local : string := "3/2/2026, 8:00:00 AM".

(** Four submissions the specification calls invalid: an empty description,
    a severity of 11, a latitude of 999 and a longitude left out as
    [null]. *)
Definition invalid_submissions : list jsval :=
  [ JObj [("userId", num 1 "1"); ("symptoms", JStr ""); ("severity", num 5 "5");
          ("latitude", num 12.9 "12.9"); ("longitude", num 77.6 "77.6");
          ("problemType", JStr "disease")];
    fever_report (num 11 "11");
    JObj [("userId", num 1 "1"); ("symptoms", JStr "Blocked drain");
          ("severity", num 5 "5"); ("latitude", num 999 "999");
          ("longitude", num 77.6 "77.6"); ("problemType", JStr "drainage")];
    JObj [("userId", num 1 "1"); ("symptoms", JStr "Blocked drain");
          ("severity", num 5 "5"); ("latitude", num 12.9 "12.9");
          ("longitude", JNull); ("problemType", JStr "drainage")] ].

(** C2, counterexample: each of the four invalid submissions is stored as a
    new report and the handler goes on to call the classifier; none is
    refused. *)
Lemma invalid_submissions_are_stored :
  every_driver (fun drv =>
    Forall (fun body =>
      spec_valid_submission body = false
      /\ exists db' call,
           symptoms_begin drv march_2 march_2_local one_user body = awaiting db' call
           /\ length (rows (symptom_logs db')) = 1%nat)
      invalid_submissions).
Proof.
  repeat split; repeat constructor; eexists; eexists; split; reflexivity.
Qed.

(** C2, amended: of the fields of a submission the handler checks the
    category alone, through the CHECK constraint of the table. A category that
    is a string other than disease, drainage and other, or a number, makes the
    INSERT throw, whatever the other fields are; an exception in the first
    phase leaves the database as it was and sends no reply of the handler's;
    and a submission whose six fields are values that the driver binds (no
    arrays, no objects), whose category passes and whose reporter is known is
    stored as a new active report, whatever its description, severity and
    coordinates. The new row holds the fields as they were sent when they are
    of the kind of their columns: numbers for the reporter, the severity and
    the coordinates, texts for the description and the category, or none. *)
Theorem submission_checked_for_category_only drv now ct db body :
  (forall v,
      get body "problemType" = inr v ->
      scalar v = true ->
      (forall c, bind drv v = inr c ->
                 check_in ["disease"; "drainage"; "other"] c = false) ->
      exists e, symptoms_begin drv now ct db body = threw e)
  /\ (forall e r,
         symptoms_begin drv now ct db body = threw e ->
         symptoms drv now ct db body r = Result db [] (uncaught e))
  /\ (forall user_id symptoms severity lat lng category,
         field drv body "userId" user_id ->
         field drv body "symptoms" symptoms ->
         field drv body "severity" severity ->
         field drv body "latitude" lat ->
         field drv body "longitude" lng ->
         field drv body "problemType" category ->
         check_in ["disease"; "drainage"; "other"] category = true ->
         (foreign_keys drv = true -> reporter_known db user_id = true) ->
         exists s call,
           symptoms_begin drv now ct db body = awaiting (with_report db s) call
           /\ s_id s = last_id (symptom_logs db) + 1
           /\ symptomLogId call = s_id s
           /\ s_status s = "active"
           /\ (typed_report body = true ->
               s = SymptomLog (last_id (symptom_logs db) + 1) user_id symptoms category
                     severity lat lng "active" now)).
Proof.
  split; [| split].
  - intros v G Hv Hbad. now apply symptoms_begin_rejects_category with (v := v).
  - intros e r H. unfold symptoms. now rewrite H.
  - intros user_id symptoms severity lat lng category F1 F2 F3 F4 F5 F6 Hc Hk.
    destruct (symptoms_begin_accepts drv now ct db body _ _ _ _ _ _ F1 F2 F3 F4 F5 F6 Hc Hk)
      as (call & E & Hid).
    eexists. exists call. split; [exact E |]. now repeat split.
Qed.

(** The theorem at work: a report of "plague" as category is refused, and
    one with severity 11 is stored. *)
Lemma submission_checked_for_category_only_witness :
  (exists e,
      symptoms_begin (Driver false true) march_2 march_2_local one_user
        (JObj [("userId", num 1 "1"); ("symptoms", JStr "Rats");
               ("severity", num 5 "5"); ("latitude", num 12.9 "12.9");
               ("longitude", num 77.6 "77.6"); ("problemType", JStr "plague")])
      = threw e)
  /\ (exists call,
         symptoms_begin (Driver false true) march_2 march_2_local one_user
           (fever_report (num 11 "11"))
         = awaiting (with_report one_user
                       (SymptomLog 1 (SNum (Number 1 "1")) (SText "High fever, dry cough")
                          (SText "disease") (SNum (Number 11 "11"))
                          (SNum (Number 12.9 "12.9")) (SNum (Number 77.6 "77.6"))
                          "active" march_2)) call
         /\ symptomLogId call = 1).
Proof.
  split.
  - apply (proj1 (submission_checked_for_category_only (Driver false true) march_2
                    march_2_local one_user _)) with (v := JStr "plague").
    + reflexivity.
    + reflexivity.
    + intros c H. injection H as <-. reflexivity.
  - destruct (proj2 (proj2 (submission_checked_for_category_only (Driver false true)
                              march_2 march_2_local one_user (fever_report (num 11 "11"))))
                (SNum (Number 1 "1")) (SText "High fever, dry cough") (SNum (Number 11 "11"))
                (SNum (Number 12.9 "12.9")) (SNum (Number 77.6 "77.6")) (SText "disease")
                ltac:(eexists; split; reflexivity) ltac:(eexists; split; reflexivity)
                ltac:(eexists; split; reflexivity) ltac:(eexists; split; reflexivity)
                ltac:(eexists; split; reflexivity) ltac:(eexists; split; reflexivity)
                eq_refl ltac:(reflexivity))
      as (s & call & E & _ & Hcall & _ & Hs).
    exists call. rewrite (Hs eq_refl) in E, Hcall. split; [exact E | exact Hcall].
Defined.

(** ** C3: when the reply is sent *)




(** ** C4: the alert that follows a classification *)

(** The stored value is the text [word]. *)
Definition is_text (v : sqlval) (word : string) : bool :=
  match v with
  | SText s => String.eqb s word
  | _ => false
  end.

Lemma strict_eq_str_bound drv v b word :
  bind drv v = inr b -> strict_eq_str v word = is_text b word.
Proof.
  destruct v; simpl; intros H; try discriminate H; try (injection H as <-; reflexivity).
  destruct (binds_undefined drv); try discriminate H. now injection H as <-.
Qed.

Lemma insert_ai_prediction_inr drv now db id d c l act db' :
  insert_ai_prediction drv now db id d c l act = inr db' ->
  db' = Database (users db) (symptom_logs db) (vital_records db)
          (Table (rows (ai_predictions db)
                  ++ [AiPrediction (last_id (ai_predictions db) + 1) id d c l act now])
                 (last_id (ai_predictions db) + 1))
          (infrastructure_layers db) (emergency_alerts db).
Proof.
  unfold insert_ai_prediction.
  destruct (foreign_keys drv && _); simpl; intros H; try discriminate H.
  now injection H as <-.
Qed.

(** C4, counterexample: a report classified as Critical gets one new alert,
    at the report's coordinates and with a message naming the predicted
    disease, but of type "Disease Outbreak": no alert of type "Outbreak Risk"
    exists afterwards. *)
Lemma alert_type_is_disease_outbreak :
  every_driver (fun drv =>
    exists db call,
      symptoms_begin drv march_2 march_2_local one_user (fever_report (num 9 "9"))
      = awaiting db call
      /\ let after :=
           res_db (symptoms_resume drv march_2 db call
                     (fulfilled (inr (dengue "Critical")))) in
         rows (emergency_alerts after)
         = [EmergencyAlert 1 (SText "Disease Outbreak")
              (SText "High risk of Dengue detected in your area.")
              (SNum (Number 12.9 "12.9")) (SNum (Number 77.6 "77.6"))
              (SText "active") march_2]
         /\ select (fun a => is_text (a_type a) "Outbreak Risk") (emergency_alerts after)
            = []).
Proof.
  repeat split; eexists; eexists; repeat split; reflexivity.
Qed.

(** The second INSERT, for a handler whose coordinates are bound as they
    were in its first phase. *)
Lemma raise_alert_bound drv now db call prediction l d lat lng :
  get prediction "risk_level" = inr l ->
  get prediction "predicted_disease" = inr d ->
  bind drv (latitude call) = inr lat ->
  bind drv (longitude call) = inr lng ->
  raise_alert drv now db call prediction
  = inr (if strict_eq_str l "Critical" || strict_eq_str l "High"
         then insert_emergency_alert now db (SText "Disease Outbreak")
                (SText ("High risk of " ++ ToString d ++ " detected in your area."))
                lat lng
         else db).
Proof.
  intros Gl Gd Blat Blng. unfold raise_alert. rewrite Gl. cbn [bind_throws].
  destruct (strict_eq_str l "Critical" || strict_eq_str l "High"); [| reflexivity].
  rewrite Gd. cbn [bind_throws].
  rewrite (parameters_bound drv 4
             [JStr "Disease Outbreak";
              JStr ("High risk of " ++ ToString d ++ " detected in your area.");
              latitude call; longitude call]
             [SText "Disease Outbreak";
              SText ("High risk of " ++ ToString d ++ " detected in your area."); lat; lng])
    by (try reflexivity; now repeat constructor).
  reflexivity.
Qed.

(** C4, amended: take a report whose coordinates, and a response whose
    four properties, are values that the driver binds (no arrays, no objects).
    When the response has been classified and its prediction stored for the
    report, exactly one prediction row is added, and the alerts grow by
    exactly one row if the risk level returned is the text Critical or High,
    and by none otherwise. The new alert has type "Disease Outbreak", the
    message "High risk of <predicted disease> detected in your area." and
    status active; and when the fields of the report and the properties of
    the response are of the kind of their columns, the two new rows hold them
    as they were sent, the alert with the coordinates stored with the
    report. *)
Theorem alert_iff_high_or_critical drv now0 ct db0 body db1 call :
  symptoms_begin drv now0 ct db0 body = awaiting db1 call ->
  plain_coordinates body = true ->
  exists s,
    db1 = with_report db0 s
    /\ s_id s = symptomLogId call
    /\ forall now db r prediction a db',
         classified drv r = inr (prediction, a) ->
         plain_response prediction = true ->
         insert_ai_prediction drv now db (symptomLogId call) (predicted_disease a)
           (confidence a) (risk_level a) (recommended_action a) = inr db' ->
         let after := res_db (symptoms_resume drv now db call r) in
         (exists p,
             rows (ai_predictions after) = (rows (ai_predictions db) ++ [p])%list
             /\ p_symptom_log_id p = symptomLogId call)
         /\ (exists alerts,
                rows (emergency_alerts after) = (rows (emergency_alerts db) ++ alerts)%list
                /\ length alerts
                   = (if is_text (risk_level a) "Critical" || is_text (risk_level a) "High"
                      then 1%nat else 0%nat)
                /\ Forall (fun alert =>
                             a_type alert = SText "Disease Outbreak"
                             /\ a_message alert
                                = SText ("High risk of "
                                         ++ ToString (get_opt prediction "predicted_disease")
                                         ++ " detected in your area.")%string
                             /\ a_status alert = SText "active")
                          alerts)
         /\ (typed_report body = true ->
             typed_response prediction = true ->
             rows (ai_predictions after)
             = (rows (ai_predictions db)
                ++ [AiPrediction (last_id (ai_predictions db) + 1) (symptomLogId call)
                      (predicted_disease a) (confidence a) (risk_level a)
                      (recommended_action a) now])%list
             /\ rows (emergency_alerts after)
                = (rows (emergency_alerts db)
                   ++ (if is_text (risk_level a) "Critical"
                          || is_text (risk_level a) "High"
                       then [EmergencyAlert (last_id (emergency_alerts db) + 1)
                               (SText "Disease Outbreak")
                               (SText ("High risk of "
                                       ++ ToString (get_opt prediction "predicted_disease")
                                       ++ " detected in your area.")%string)
                               (s_latitude s) (s_longitude s) (SText "active") now]
                       else []))%list).
Proof.
  intros H Hp. pose proof (begin_bindable _ _ _ _ _ _ _ H Hp) as (lat & lng & Blat & Blng).
  assert (Hs : exists s,
             db1 = with_report db0 s /\ s_id s = symptomLogId call
             /\ (typed_report body = true ->
                 s_latitude s = lat /\ s_longitude s = lng)).
  { destruct (typed_report body) eqn:Ht.
    - apply symptoms_begin_plain in H as (s & -> & Hid & _ & _ & _ & _ & Blat' & Blng');
        [| now apply typed_report_plain].
      exists s. repeat split; [assumption | congruence | congruence].
    - apply symptoms_begin_awaiting in H as (s & -> & _ & Hid & _).
      exists s. repeat split; [easy | discriminate | discriminate]. }
  destruct Hs as (s & -> & Hid & Hcoord).
  exists s. split; [reflexivity |]. split; [assumption |].
  intros now db r prediction a db' C Hr I.
  assert (E : res_db (symptoms_resume drv now db call r)
              = if is_text (risk_level a) "Critical" || is_text (risk_level a) "High"
                then insert_emergency_alert now db' (SText "Disease Outbreak")
                       (SText ("High risk of "
                               ++ ToString (get_opt prediction "predicted_disease")
                               ++ " detected in your area."))
                       lat lng
                else db').
  { unfold symptoms_resume, store_prediction. rewrite C. cbn [bind_throws]. rewrite I.
    cbn [bind_throws].
    apply classified_plain in C as (_ & d & c & l & act & Gd & _ & _ & _ & Gl & Bl & _);
      [| assumption].
    rewrite (raise_alert_bound _ _ _ _ _ _ _ _ _ Gl Gd Blat Blng).
    rewrite !(strict_eq_str_bound drv l (risk_level a)) by assumption.
    rewrite (get_opt_get _ _ _ Gd). reflexivity. }
  cbv zeta. rewrite E. apply insert_ai_prediction_inr in I as ->.
  destruct (is_text (risk_level a) "Critical" || is_text (risk_level a) "High");
    cbn [insert_emergency_alert append emergency_alerts ai_predictions rows fst snd].
  - split; [eexists; split; reflexivity |]. split.
    + eexists. split; [reflexivity |]. split; [reflexivity |].
      repeat constructor.
    + intros Ht _. destruct (Hcoord Ht) as [-> ->]. split; reflexivity.
  - split; [eexists; split; reflexivity |]. split.
    + exists []. split; [now rewrite app_nil_r |]. split; [reflexivity | constructor].
    + intros _ _. rewrite app_nil_r. split; reflexivity.
Qed.

(** The report of [fever_report] as the first phase stores it in
    [one_user], and the handler suspended on it. *)
Definition stored_fever (severity : number) : symptom_log :=
  SymptomLog 1 (SNum (Number 1 "1")) (SText "High fever, dry cough") (SText "disease")
             (SNum severity) (SNum (Number 12.9 "12.9")) (SNum (Number 77.6 "77.6"))
             "active" march_2.

Definition fever_call (severity : number) : pending :=
  match symptoms_begin (Driver false true) march_2 march_2_local one_user
          (fever_report (JNum severity)) with
  | awaiting _ call => call
  | threw _ => Pending 0 JUndefined JUndefined ""
  end.

(** The theorem at work: a High prediction for the stored report adds the
    one alert, at 12.9, 77.6. *)
Lemma alert_iff_high_or_critical_witness :
  rows (emergency_alerts
          (res_db (symptoms_resume (Driver false true) march_2
                     (with_report one_user (stored_fever (Number 9 "9")))
                     (fever_call (Number 9 "9")) (fulfilled (inr (dengue "High"))))))
  = [EmergencyAlert 1 (SText "Disease Outbreak")
       (SText "High risk of Dengue detected in your area.")
       (SNum (Number 12.9 "12.9")) (SNum (Number 77.6 "77.6")) (SText "active") march_2].
Proof.
  destruct (alert_iff_high_or_critical (Driver false true) march_2 march_2_local one_user
              (fever_report (num 9 "9"))
              (with_report one_user (stored_fever (Number 9 "9")))
              (fever_call (Number 9 "9")) eq_refl eq_refl) as (s & E & _ & K).
  injection E as <-.
  refine (proj2 (proj2 (proj2 (K march_2 (with_report one_user (stored_fever (Number 9 "9")))
                                 (fulfilled (inr (dengue "High"))) (dengue "High")
                                 (Assessment (SText "Dengue") (SNum (Number 0.9 "0.9"))
                                             (SText "High") (SText "See a doctor"))
                                 _ eq_refl eq_refl eq_refl))
                   eq_refl eq_refl)).
Defined.

(** ** Report ids *)

(** Ids are handed out in increasing order, so that no row, and no
    prediction, refers to an id that has not been assigned yet. *)
Definition sound (db : database) : Prop :=
  Forall (fun s => s_id s <= last_id (symptom_logs db)) (rows (symptom_logs db))
  /\ Forall (fun p => p_symptom_log_id p <= last_id (symptom_logs db))
            (rows (ai_predictions db)).

Lemma filter_none {A} (f : A -> bool) (l : list A) :
  Forall (fun x => f x = false) l -> List.filter f l = [].
Proof.
  induction 1 as [| x l Hx _ IH]; simpl; [reflexivity |]. now rewrite Hx.
Qed.


(** ** C5: a classification that fails *)






(** ** C6: one classification for each report *)

Definition report_ids (db : database) : list Z :=
  List.map s_id (rows (symptom_logs db)).

Definition assessed_ids (db : database) : list Z :=
  List.map p_symptom_log_id (rows (ai_predictions db)).

Definition awaited_ids (sv : server) : list Z :=
  List.map symptomLogId (suspended sv).

(** What every step of the server keeps true: ids grow, the classifier has
    been called for the reports and in their order, and a report id belongs to
    at most one suspended handler or stored prediction. *)
Record consistent (sv : server) : Prop := Consistent {
  ids_bounded : Forall (fun i => i <= last_id (symptom_logs (store sv)))
                       (report_ids (store sv));
  ids_distinct : NoDup (report_ids (store sv));
  called_once : invoked sv = report_ids (store sv);
  settled_once : NoDup (assessed_ids (store sv) ++ awaited_ids sv)%list;
  settled_known : Forall (fun i => i <= last_id (symptom_logs (store sv)))
                         (assessed_ids (store sv) ++ awaited_ids sv)%list
}.

Lemma consistent_started : consistent started.
Proof. split; simpl; try constructor; reflexivity. Qed.

Lemma insert_user_keeps now db e p f r st h w a db' id :
  insert_user now db e p f r st h w a = inr (db', id) ->
  symptom_logs db' = symptom_logs db /\ ai_predictions db' = ai_predictions db.
Proof.
  unfold insert_user. intros I.
  repeat match type of I with
         | context [if ?c then _ else _] => destruct c; simpl in I; try discriminate I
         end.
  now injection I as <- <-.
Qed.

Lemma signup_keeps drv now db body :
  symptom_logs (fst (signup drv now db body)) = symptom_logs db
  /\ ai_predictions (fst (signup drv now db body)) = ai_predictions db.
Proof.
  unfold signup.
  destruct (bind_throws (get body "email") _) as [e | [[[[[[[? ?] ?] ?] ?] ?] ?] ?]];
    simpl; [auto |].
  match goal with
  | |- context [match ?m with _ => _ end] => destruct m as [e | [db' id]] eqn:I
  end; simpl; [auto |].
  split_throws. now apply insert_user_keeps in I.
Qed.

Lemma solve_keeps db id :
  report_ids (fst (solve db id)) = report_ids db
  /\ last_id (symptom_logs (fst (solve db id))) = last_id (symptom_logs db)
  /\ ai_predictions (fst (solve db id)) = ai_predictions db.
Proof.
  unfold solve, update_solved, report_ids. simpl. repeat split.
  rewrite List.map_map. apply List.map_ext. intros s. now destruct (is_id _ _).
Qed.

(** What a settled call writes: nothing, or one prediction for its report,
    with or without an alert. *)
Lemma resume_keeps drv now db call r :
  let db' := res_db (symptoms_resume drv now db call r) in
  symptom_logs db' = symptom_logs db
  /\ (assessed_ids db' = assessed_ids db
      \/ assessed_ids db' = (assessed_ids db ++ [symptomLogId call])%list).
Proof.
  unfold symptoms_resume.
  destruct (store_prediction drv now db call r) as [e | [db1 prediction]] eqn:E; simpl.
  { auto. }
  apply store_prediction_inr in E as (a & _ & I). apply insert_ai_prediction_inr in I as ->.
  assert (K : forall db2, raise_alert drv now
                (Database (users db) (symptom_logs db) (vital_records db)
                   (Table (rows (ai_predictions db)
                           ++ [AiPrediction (last_id (ai_predictions db) + 1)
                                 (symptomLogId call) (predicted_disease a) (confidence a)
                                 (risk_level a) (recommended_action a) now])
                      (last_id (ai_predictions db) + 1))
                   (infrastructure_layers db) (emergency_alerts db)) call prediction
              = inr db2 ->
              symptom_logs db2 = symptom_logs db
              /\ assessed_ids db2 = (assessed_ids db ++ [symptomLogId call])%list).
  { unfold raise_alert. intros db2 H. split_throws;
    match type of H with
    | context [if ?a || ?b then _ else _] => destruct (a || b) in H
    end; simpl in H; try discriminate H; injection H as <-; unfold assessed_ids; simpl;
      now rewrite List.map_app. }
  destruct (raise_alert _ _ _ _ _) as [e | db2] eqn:A; simpl.
  - split; [reflexivity |]. right. unfold assessed_ids. simpl. now rewrite List.map_app.
  - destruct (K db2 eq_refl) as [-> ->]. auto.
Qed.

Lemma below_not_in (l : list Z) (b id : Z) :
  Forall (fun i => i <= b) l -> b < id -> id ∉ l.
Proof.
  intros H Hlt Hin. rewrite Forall_forall in H. apply H in Hin. lia.
Qed.

Lemma below_weaken (l : list Z) (b : Z) :
  Forall (fun i => i <= b) l -> Forall (fun i => i <= b + 1) l.
Proof. intros H. eapply Forall_impl; [exact H |]. simpl. intros. lia. Qed.

Lemma NoDup_snoc (l : list Z) (id : Z) : NoDup l -> id ∉ l -> NoDup (l ++ [id]).
Proof.
  intros Hl Hid. apply NoDup_app. repeat split; [assumption | | apply NoDup_singleton].
  intros x Hx Hx'. apply list_elem_of_singleton in Hx'. now subst.
Qed.

Lemma awaited_delete (l : list pending) (n : nat) (call : pending) :
  l !! n = Some call ->
  List.map symptomLogId l ≡ₚ symptomLogId call :: List.map symptomLogId (delete n l).
Proof.
  intros H. apply delete_Permutation in H.
  now apply (Permutation_map symptomLogId) in H.
Qed.

(** Every step keeps the server consistent. *)
Lemma serve_consistent drv sv ev : consistent sv -> consistent (fst (serve drv sv ev)).
Proof.
  intros [Hb Hd Hc Hs Hk].
  destruct ev as [now body | body | now ct body | n now r | id | req | req userId];
    unfold serve; try (now split).
  - (* signup *)
    pose proof (signup_keeps drv now (store sv) body) as [K1 K2].
    destruct (signup drv now (store sv) body) as [db out]. simpl in *.
    split; unfold report_ids, assessed_ids, awaited_ids in *; simpl;
      now rewrite ?K1, ?K2.
  - (* a report is submitted *)
    destruct (symptoms_begin drv now ct (store sv) body) as [e | db call] eqn:E;
      simpl; [now split |].
    apply symptoms_begin_awaiting in E as (s & -> & Hid & Hcall & _).
    unfold report_ids, assessed_ids, awaited_ids in *. rewrite Hcall.
    split; unfold report_ids, assessed_ids, awaited_ids; simpl;
      rewrite ?List.map_app; simpl.
    + apply Forall_app. split; [| repeat constructor; lia].
      rewrite Hid. now apply below_weaken.
    + apply NoDup_snoc; [assumption |]. eapply below_not_in; [exact Hb | lia].
    + now rewrite Hc.
    + rewrite app_assoc. apply NoDup_snoc; [assumption |].
      eapply below_not_in; [exact Hk | lia].
    + rewrite app_assoc. apply Forall_app. split; [| repeat constructor; lia].
      rewrite Hid. now apply below_weaken.
  - (* a call settles *)
    destruct (suspended sv !! n) as [call |] eqn:L; simpl; [| now split].
    pose proof (resume_keeps drv now (store sv) call r) as [K1 K2]. simpl in K1, K2.
    pose proof (awaited_delete _ _ _ L) as P.
    unfold awaited_ids in *. rewrite P in Hs, Hk.
    split; unfold report_ids, awaited_ids in *; simpl; rewrite ?K1; try assumption.
    + destruct K2 as [-> | ->].
      * rewrite <- Permutation_middle in Hs. now apply NoDup_cons in Hs as [_ Hs].
      * now rewrite <- app_assoc.
    + destruct K2 as [-> | ->].
      * rewrite <- Permutation_middle in Hk. now apply Forall_cons in Hk as [_ Hk].
      * now rewrite <- app_assoc.
  - (* a report is solved *)
    pose proof (solve_keeps (store sv) id) as (K1 & K2 & K3).
    destruct (solve (store sv) id) as [db out]. simpl in *.
    split; unfold assessed_ids, awaited_ids in *; simpl; now rewrite ?K1, ?K2, ?K3.
Qed.

Lemma run_from_consistent drv evs sv :
  consistent sv -> consistent (fold_left (fun sv ev => fst (serve drv sv ev)) evs sv).
Proof.
  revert sv. induction evs as [| ev evs IH]; simpl; intros sv H; [assumption |].
  apply IH. now apply serve_consistent.
Qed.

Lemma run_consistent drv evs : consistent (run drv evs).
Proof. apply run_from_consistent, consistent_started. Qed.

(** In particular the database of the running server is always [sound]. *)
Lemma run_sound drv evs : sound (store (run drv evs)).
Proof.
  destruct (run_consistent drv evs) as [Hb _ _ _ Hk].
  apply Forall_app in Hk as [Hk _]. unfold report_ids, assessed_ids in *.
  split; apply Forall_forall; intros x Hx.
  - rewrite Forall_forall in Hb. apply Hb. now apply list_elem_of_In, in_map, list_elem_of_In.
  - rewrite Forall_forall in Hk. apply Hk. now apply list_elem_of_In, in_map, list_elem_of_In.
Qed.

Lemma at_most_one {A} (f : A -> Z) (l : list A) (id : Z) :
  NoDup (List.map f l) -> (length (List.filter (fun x => Z.eqb (f x) id) l) <= 1)%nat.
Proof.
  induction l as [| x l IH]; simpl; intros H; [lia |].
  apply NoDup_cons in H as [Hx Hl].
  destruct (Z.eqb_spec (f x) id) as [<- |]; [| now apply IH].
  rewrite filter_none; [simpl; lia |].
  apply Forall_forall. intros y Hy. apply Z.eqb_neq. intros Heq. apply Hx.
  rewrite <- Heq. apply list_elem_of_In, in_map, list_elem_of_In, Hy.
Qed.


(** Two reports are submitted before either is classified, and the second
    call settles first: each report ends up with its own prediction. *)
Example interleaved_submissions :
  let sv := run (Driver false true)
              [PostSignup "2026-03-01 09:00:00"
                 (JObj [("email", JStr "ravi@example.org"); ("password", JStr "secret");
                        ("fullName", JStr "Ravi Kumar"); ("role", JStr "citizen");
                        ("streetName", JStr "MG Road"); ("houseNumber", JStr "12-4");
                        ("wardNo", JStr "7"); ("age", num 34 "34")]);
               PostSymptoms march_2 march_2_local (fever_report (num 9 "9"));
               PostSymptoms march_2 march_2_local (fever_report (num 3 "3"));
               Settles 1 march_2 (fulfilled (inr (dengue "Low")));
               Settles 0 march_2 (fulfilled (inr (dengue "Critical")))] in
  List.map (fun p => (p_symptom_log_id p, p_risk_level p))
           (rows (ai_predictions (store sv)))
  = [(2, SText "Low"); (1, SText "Critical")]
  /\ invoked sv = [1; 2]
  /\ suspended sv = [].
Proof. repeat split. Qed.

(** ** The try branch *)

(** The second INSERT touches the alerts alone. *)
Lemma raise_alert_frame drv now db call prediction db' :
  raise_alert drv now db call prediction = inr db' ->
  users db' = users db
  /\ symptom_logs db' = symptom_logs db
  /\ vital_records db' = vital_records db
  /\ ai_predictions db' = ai_predictions db
  /\ infrastructure_layers db' = infrastructure_layers db.
Proof.
  unfold raise_alert. intros H.
  destruct (get prediction "risk_level") as [e | l]; cbn [bind_throws] in H;
    [discriminate |].
  destruct (strict_eq_str l "Critical" || strict_eq_str l "High");
    [| injection H as <-; now repeat split].
  destruct (get prediction "predicted_disease") as [e | d]; cbn [bind_throws] in H;
    [discriminate |].
  destruct (parameters drv 4 _) as [e | bound]; cbn [bind_throws] in H; [discriminate |].
  injection H as <-. now repeat split.
Qed.


(** ** C7: marking a report solved *)

Definition solved (s : symptom_log) : symptom_log :=
  SymptomLog (s_id s) (s_user_id s) (s_symptoms s) (s_problem_type s) (s_severity s)
             (s_latitude s) (s_longitude s) "solved" (s_created_at s).

Definition success : outcome := replied 200 (JObj [("success", JBool true)]).

Lemma is_id_int (i j : Z) : is_id i (SNum (int j)) = Z.eqb i j.
Proof.
  unfold is_id, sql_eq, int. simpl. unfold Qeq_bool. simpl.
  rewrite !Z.mul_1_r. reflexivity.
Qed.

Lemma solve_rows db id :
  rows (symptom_logs (fst (solve db id)))
  = List.map (fun s => if is_id (s_id s) id then solved s else s) (rows (symptom_logs db)).
Proof. reflexivity. Qed.

Lemma database_eta db :
  Database (users db) (Table (rows (symptom_logs db)) (last_id (symptom_logs db)))
           (vital_records db) (ai_predictions db) (infrastructure_layers db)
           (emergency_alerts db) = db.
Proof. destruct db as [u [r l] v p i a]. reflexivity. Qed.

(** C7, counterexample: asked to solve report 42 when no report exists, the
    handler changes nothing and answers 200 with [success: true], not with an
    error that says the report was not found. *)
Lemma solve_unknown_id_succeeds :
  solve one_user (SNum (int 42)) = (one_user, replied 200 (JObj [("success", JBool true)]))
  /\ report 42 one_user = None.
Proof. split; reflexivity. Qed.

(** C7, amended: marking a report solved always answers 200 with
    [success: true]. The report with the given id is afterwards solved and
    every other report is as before; doing it again changes nothing more; and
    with an id that no report has, nothing changes at all. *)
Theorem mark_solved_is_idempotent db :
  (forall id, snd (solve db id) = success)
  /\ (forall id s,
         report id db = Some s ->
         report id (fst (solve db (SNum (int id)))) = Some (solved s))
  /\ (forall id s,
         In s (rows (symptom_logs db)) -> is_id (s_id s) id = false ->
         In s (rows (symptom_logs (fst (solve db id)))))
  /\ (forall id, solve (fst (solve db id)) id = solve db id)
  /\ (forall id,
         Forall (fun s => is_id (s_id s) id = false) (rows (symptom_logs db)) ->
         solve db id = (db, success)).
Proof.
  split; [reflexivity |]. split; [| split; [| split]].
  - intros id s. unfold report, select. rewrite solve_rows.
    induction (rows (symptom_logs db)) as [| x l IH]; simpl; [discriminate |].
    rewrite is_id_int.
    destruct (Z.eqb_spec (s_id x) id) as [E | E]; simpl.
    + rewrite E, Z.eqb_refl. simpl. now intros [= ->].
    + apply Z.eqb_neq in E. rewrite E. exact IH.
  - intros id s Hin Hid. rewrite solve_rows. apply in_map_iff. exists s.
    now rewrite Hid.
  - intros id. unfold solve, update_solved. simpl.
    rewrite List.map_map.
    rewrite (List.map_ext _ (fun s => if is_id (s_id s) id then solved s else s));
      [reflexivity |].
    intros s. destruct (is_id (s_id s) id) eqn:E; simpl; rewrite ?E; reflexivity.
  - intros id H. unfold solve, update_solved, success. simpl.
    rewrite (List.map_ext_in _ (fun s => s)).
    + rewrite List.map_id. now rewrite database_eta.
    + intros s Hs. rewrite Forall_forall in H. rewrite H; [reflexivity |].
      now apply list_elem_of_In.
Qed.

(** The theorem at work on the stored fever report. *)
Lemma mark_solved_is_idempotent_witness :
  report 1 (fst (solve (with_report one_user (stored_fever (Number 9 "9"))) (SNum (int 1))))
  = Some (solved (stored_fever (Number 9 "9")))
  /\ solve one_user (SNum (int 42)) = (one_user, success).
Proof.
  split.
  - apply (proj1 (proj2 (mark_solved_is_idempotent
                           (with_report one_user (stored_fever (Number 9 "9")))))).
    reflexivity.
  - apply (proj2 (proj2 (proj2 (proj2 (mark_solved_is_idempotent one_user))))).
    constructor.
Defined.

(** ** C8: what a response is checked for *)





(** ** C10: what the reply tells of the classification *)





(** ** Arrays among the arguments

    What the spreading of arrays makes of the handlers, on the fever report
    of user 1. *)

(** The risk level comes as the array [["High"]]. The driver binds its one
    element, and the prediction is stored with the risk level High; the test
    of line 181 is on the array, and no alert follows. *)
Example array_as_risk_level :
  every_driver (fun drv =>
    let res := symptoms_resume drv march_2
                 (with_report one_user (stored_fever (Number 9 "9")))
                 (fever_call (Number 9 "9"))
                 (fulfilled (inr (JObj [("predicted_disease", JStr "Dengue");
                                        ("confidence", num 0.9 "0.9");
                                        ("risk_level", JArr [JStr "High"]);
                                        ("recommended_action", JStr "See a doctor")]))) in
    List.map p_risk_level (rows (ai_predictions (res_db res))) = [SText "High"]
    /\ rows (emergency_alerts (res_db res)) = []
    /\ res_console res = []).
Proof. repeat split. Qed.

(** The category comes as the array [["disease"]]: the report is stored,
    with the category disease. *)
Example array_as_category :
  every_driver (fun drv =>
    exists db call,
      symptoms_begin drv march_2 march_2_local one_user
        (JObj [("userId", num 1 "1"); ("symptoms", JStr "High fever, dry cough");
               ("severity", num 9 "9"); ("latitude", num 12.9 "12.9");
               ("longitude", num 77.6 "77.6"); ("problemType", JArr [JStr "disease"])])
      = awaiting db call
      /\ rows (symptom_logs db) = [stored_fever (Number 9 "9")]).
Proof. repeat split; eexists; eexists; split; reflexivity. Qed.

(** The email comes as an array of two strings and the password as the
    empty array: the two strings are the parameters, and the user whose email
    and password they are is let in. *)
Example arrays_as_credentials :
  every_driver (fun drv =>
    login drv one_user
      (JObj [("email", JArr [JStr "ravi@example.org"; JStr "secret"]);
             ("password", JArr [])])
    = replied 200 (JObj (user_columns ravi))).
Proof. repeat split. Qed.

(** The severity comes as the empty array and the latitude as an array of
    two numbers. The first INSERT has its six values, and the report is stored
    with the severity 5 and the latitude 12.9; the INSERT of the alert,
    which takes the latitude again, has five values for four parameters. So
    for a response with the risk level High the prediction is stored, the
    alert is not, and the handler, in its catch branch, replies
    [prediction: null]. *)
Example arrays_as_coordinates :
  every_driver (fun drv =>
    exists db call,
      symptoms_begin drv march_2 march_2_local one_user
        (JObj [("userId", num 1 "1"); ("symptoms", JStr "High fever, dry cough");
               ("severity", JArr []); ("latitude", JArr [num 5 "5"; num 12.9 "12.9"]);
               ("longitude", num 77.6 "77.6"); ("problemType", JStr "disease")])
      = awaiting db call
      /\ rows (symptom_logs db)
         = [SymptomLog 1 (SNum (Number 1 "1")) (SText "High fever, dry cough")
              (SText "disease") (SNum (Number 5 "5")) (SNum (Number 12.9 "12.9"))
              (SNum (Number 77.6 "77.6")) "active" march_2]
      /\ let res := symptoms_resume drv march_2 db call (fulfilled (inr (dengue "High"))) in
         List.map p_risk_level (rows (ai_predictions (res_db res))) = [SText "High"]
         /\ rows (emergency_alerts (res_db res)) = []
         /\ res_console res = [too_many]
         /\ res_out res
            = replied 200 (JObj [("symptomLogId", JNum (int 1)); ("prediction", JNull)])).
Proof. repeat split; eexists; eexists; repeat split. Qed.

(** ** C9: the recent reports of a user *)

Lemma leb_trans (a b c : string) :
  String.leb a b = true -> String.leb b c = true -> String.leb a c = true.
Proof.
  unfold String.leb. revert b c.
  induction a as [| x a IH]; intros [| y b] [| z c]; simpl; try easy.
  unfold Ascii.compare.
  destruct (N.compare_spec (N_of_ascii x) (N_of_ascii y)) as [Exy | Lxy | Gxy];
    try easy;
    destruct (N.compare_spec (N_of_ascii y) (N_of_ascii z)) as [Eyz | Lyz | Gyz];
    try easy;
    destruct (N.compare_spec (N_of_ascii x) (N_of_ascii z)) as [Exz | Lxz | Gxz];
    try easy; try lia.
  apply IH.
Qed.

#[global] Instance newer_first_transitive {row} (created_at : row -> timestamp) :
  Transitive (newer_first created_at).
Proof. intros a b c Hab Hbc. unfold newer_first in *. now apply leb_trans with (b := created_at b). Qed.

#[global] Instance newer_first_total {row} (created_at : row -> timestamp) :
  Total (newer_first created_at).
Proof. intros a b. unfold newer_first. destruct (String.leb_total (created_at a) (created_at b)); auto. Qed.

(** The reports of a user, as the WHERE clause selects them. *)
Definition reports_of (db : database) (userId : sqlval) : list symptom_log :=
  select (fun s => sql_eq (s_user_id s) userId) (symptom_logs db).

Lemma recent_logs_split db userId :
  exists older,
    order_by_created_at_desc s_created_at (reports_of db userId)
    = (recent_logs db userId ++ older)%list.
Proof.
  exists (drop 5 (order_by_created_at_desc s_created_at (reports_of db userId))).
  unfold recent_logs, reports_of. now rewrite take_drop.
Qed.

(** A user with six reports, the first of them classified. *)
Definition six_reports : database :=
  store (run (Driver false true)
           [PostSignup "2026-03-01 09:00:00"
              (JObj [("email", JStr "ravi@example.org"); ("password", JStr "secret");
                     ("fullName", JStr "Ravi Kumar"); ("role", JStr "citizen");
                     ("streetName", JStr "MG Road"); ("houseNumber", JStr "12-4");
                     ("wardNo", JStr "7"); ("age", num 34 "34")]);
            PostSymptoms "2026-03-02 08:00:00" march_2_local (fever_report (num 9 "9"));
            Settles 0 "2026-03-02 08:00:03" (fulfilled (inr (dengue "High")));
            PostSymptoms "2026-03-03 08:00:00" march_2_local (fever_report (num 8 "8"));
            PostSymptoms "2026-03-04 08:00:00" march_2_local (fever_report (num 7 "7"));
            PostSymptoms "2026-03-05 08:00:00" march_2_local (fever_report (num 6 "6"));
            PostSymptoms "2026-03-06 08:00:00" march_2_local (fever_report (num 5 "5"));
            PostSymptoms "2026-03-07 08:00:00" march_2_local (fever_report (num 4 "4"))]).

(** A request for the reports of user 1 that asks for two of them. *)
Definition two_please : jsval :=
  JObj [("params", JObj [("userId", JStr "1")]); ("query", JObj [("limit", JStr "2")])].

(** C9, counterexample: asked for two reports of a user who has six, the
    handler returns five. *)
Lemma recent_reports_ignore_limit :
  exists logs vitals,
    user_stats two_please (SNum (int 1)) six_reports
    = replied 200 (JObj (("logs", JArr logs) :: vitals))
    /\ length logs = 5%nat
    /\ length (reports_of six_reports (SNum (int 1))) = 6%nat.
Proof. eexists. eexists. repeat split. Qed.

(** C9, amended: whatever else the request says, the handler returns the
    five most recent reports of the user, or all of them when there are fewer:
    rows of [symptom_logs] whose [user_id] is the user's, newest first, none
    of the reports left out being newer than one returned. *)
Theorem recent_reports_are_the_latest_five req userId db :
  (forall req', user_stats req' userId db = user_stats req userId db)
  /\ (exists logs vitals,
         user_stats req userId db = replied 200 (JObj (("logs", JArr logs) :: vitals))
         /\ List.map (fun log => get_opt log "id") logs
            = List.map (fun s => JNum (int (s_id s))) (recent_logs db userId))
  /\ length (recent_logs db userId) = Nat.min 5 (length (reports_of db userId))
  /\ (forall s, In s (recent_logs db userId) -> In s (reports_of db userId))
  /\ (forall s,
         In s (reports_of db userId) <->
         In s (rows (symptom_logs db)) /\ sql_eq (s_user_id s) userId = true)
  /\ StronglySorted (newer_first s_created_at) (recent_logs db userId)
  /\ (exists older,
         recent_logs db userId ++ older ≡ₚ reports_of db userId
         /\ forall s s', In s (recent_logs db userId) -> In s' older ->
                         newer_first s_created_at s s').
Proof.
  destruct (recent_logs_split db userId) as [older Hsplit].
  pose proof (StronglySorted_merge_sort (newer_first s_created_at) (reports_of db userId))
    as Hsorted.
  fold (order_by_created_at_desc s_created_at (reports_of db userId)) in Hsorted.
  rewrite Hsplit in Hsorted.
  pose proof (merge_sort_Permutation (newer_first s_created_at) (reports_of db userId))
    as Hperm.
  fold (order_by_created_at_desc s_created_at (reports_of db userId)) in Hperm.
  rewrite Hsplit in Hperm.
  split; [reflexivity |]. split; [| split; [| split; [| split; [| split]]]].
  - unfold user_stats, json. simpl.
    destruct (latest_vitals db userId); simpl; eexists; eexists;
      (split; [reflexivity |]); now rewrite List.map_map.
  - unfold recent_logs. rewrite length_take. fold (reports_of db userId).
    unfold order_by_created_at_desc.
    now rewrite (Permutation_length
                   (merge_sort_Permutation (newer_first s_created_at) (reports_of db userId))).
  - intros s Hs. apply list_elem_of_In. rewrite <- Hperm.
    apply elem_of_app. left. now apply list_elem_of_In.
  - intros s. unfold reports_of, select. apply filter_In.
  - now apply StronglySorted_app_1_l in Hsorted.
  - exists older. split; [exact Hperm |]. intros s s' Hs Hs'.
    eapply StronglySorted_app_1_elem_of; [exact Hsorted | |]; now apply list_elem_of_In.
Qed.

(** The theorem at work: the report of March 7 is returned, and is one of
    the reports of user 1. *)
Lemma recent_reports_are_the_latest_five_witness :
  In (SymptomLog 6 (SNum (Number 1 "1")) (SText "High fever, dry cough") (SText "disease")
        (SNum (Number 4 "4")) (SNum (Number 12.9 "12.9")) (SNum (Number 77.6 "77.6"))
        "active" "2026-03-07 08:00:00")
     (reports_of six_reports (SNum (int 1))).
Proof.
  apply (proj1 (proj2 (proj2 (proj2 (recent_reports_are_the_latest_five two_please
                                       (SNum (int 1)) six_reports))))).
  vm_compute. left. reflexivity.
Defined.

(** ** C1: who sees the reporter of a point *)

Lemma left_join_match {A B} (cond : A -> B -> bool) (l : list A) (r : list B) a b :
  In a l -> In b r -> cond a b = true -> In (a, Some b) (left_join cond l r).
Proof.
  intros Ha Hb Hc. unfold left_join. apply in_flat_map. exists a. split; [assumption |].
  assert (Hin : In b (List.filter (cond a) r)) by (apply filter_In; auto).
  destruct (List.filter (cond a) r) as [| x matches]; [destruct Hin |].
  apply in_map_iff. eauto.
Qed.

Lemma left_join_left {A B} (cond : A -> B -> bool) (l : list A) (r : list B) a :
  In a l -> exists b, In (a, b) (left_join cond l r).
Proof.
  intros Ha. unfold left_join.
  destruct (List.filter (cond a) r) as [| x matches] eqn:E.
  - exists None. apply in_flat_map. exists a. split; [assumption |]. rewrite E. now left.
  - exists (Some x). apply in_flat_map. exists a. split; [assumption |]. rewrite E.
    now left.
Qed.

(** What [fetchMapData] of [App.tsx] sends, whoever is logged in. *)
Definition fetch_map_data : jsval :=
  JObj [("method", JStr "GET"); ("url", JStr "/api/map-data")].

(** A citizen, as [POST /api/auth/login] returns them to the client. *)
Definition a_citizen : object :=
  [("id", num 2 "2"); ("email", JStr "meera@example.org"); ("full_name", JStr "Meera Nair");
   ("role", JStr "citizen")].

(** C1, counterexample: with one report by Ravi Kumar stored, the map view
    the server returns, to a citizen as to anyone, holds a point with his
    name, age, house number, street and ward. *)
Lemma map_data_names_the_reporter :
  exists point rest,
    map_data fetch_map_data (with_report one_user (stored_fever (Number 9 "9")))
    = replied 200 (JObj (("symptoms", JArr [JObj point]) :: rest))
    /\ prop point "full_name" = JStr "Ravi Kumar"
    /\ prop point "age" = num 34 "34"
    /\ prop point "house_number" = JStr "12-4"
    /\ prop point "street_name" = JStr "MG Road"
    /\ prop point "ward_no" = JStr "7".
Proof. eexists. eexists. split; [reflexivity |]. repeat split. Qed.

(** C1, amended: the map view the server returns does not depend on the
    request, and so not on the viewer; each report whose reporter is a known
    user is returned as a point with the reporter's name, age, house number,
    street and ward as stored. It is the popup of the client that withholds
    them: it shows the five fields of the point when the logged-in user's role
    is asha or government, and shows none otherwise, as for a citizen. *)
Theorem reporter_is_hidden_by_the_client_only db :
  (forall req req', map_data req db = map_data req' db)
  /\ (forall req,
         exists rest,
           map_data req db
           = replied 200 (JObj (("symptoms", JArr (List.map map_point (map_symptoms db)))
                                :: rest)))
  /\ (forall s u,
         In s (rows (symptom_logs db)) ->
         In u (rows (users db)) ->
         is_id (u_id u) (s_user_id s) = true ->
         exists p point,
           In (s, p, Some u) (map_symptoms db)
           /\ map_point (s, p, Some u) = JObj point
           /\ prop point "id" = JNum (int (s_id s))
           /\ prop point "full_name" = column (u_full_name u)
           /\ prop point "age" = column (u_age u)
           /\ prop point "house_number" = column (u_house_number u)
           /\ prop point "street_name" = column (u_street_name u)
           /\ prop point "ward_no" = column (u_ward_no u))
  /\ (forall user point,
         has_role user "asha" || has_role user "government" = true ->
         exists solve_button,
           details (marker_popup user point)
           = Some (PatientDetails (prop point "full_name") (prop point "age")
                                  (prop point "house_number") (prop point "street_name")
                                  (prop point "ward_no") solve_button))
  /\ (forall user point,
         has_role user "asha" || has_role user "government" = false ->
         details (marker_popup user point) = None)
  /\ (forall user,
         prop user "role" = JStr "citizen" ->
         has_role (Some user) "asha" || has_role (Some user) "government" = false).
Proof.
  split; [reflexivity |]. split; [| split; [| split; [| split]]].
  - intros req. eexists. reflexivity.
  - intros s u Hs Hu Hid.
    destruct (left_join_left (fun s p => Z.eqb (s_id s) (p_symptom_log_id p))
                (rows (symptom_logs db)) (rows (ai_predictions db)) s Hs) as [p Hp].
    exists p. eexists. split; [| split; [reflexivity |]].
    + unfold map_symptoms.
      now apply (left_join_match (fun sp u => is_id (u_id u) (s_user_id (fst sp)))).
    + repeat split.
  - intros user point H. unfold marker_popup. simpl. rewrite H. eexists. reflexivity.
  - intros user point H. unfold marker_popup. simpl. now rewrite H.
  - intros user H. unfold has_role. now rewrite H.
Qed.

(** The theorem at work: the point of Ravi Kumar's report, and what the
    popup shows of it to a citizen. *)
Lemma reporter_is_hidden_by_the_client_only_witness :
  (exists p point,
      In (stored_fever (Number 9 "9"), p, Some ravi)
         (map_symptoms (with_report one_user (stored_fever (Number 9 "9"))))
      /\ map_point (stored_fever (Number 9 "9"), p, Some ravi) = JObj point
      /\ prop point "id" = JNum (int 1)
      /\ prop point "full_name" = JStr "Ravi Kumar"
      /\ prop point "age" = num 34 "34"
      /\ prop point "house_number" = JStr "12-4"
      /\ prop point "street_name" = JStr "MG Road"
      /\ prop point "ward_no" = JStr "7")
  /\ details (marker_popup (Some a_citizen) [("full_name", JStr "Ravi Kumar")]) = None.
Proof.
  split.
  - apply (proj1 (proj2 (proj2 (reporter_is_hidden_by_the_client_only
                                  (with_report one_user (stored_fever (Number 9 "9"))))))
             (stored_fever (Number 9 "9")) ravi).
    + simpl. now left.
    + simpl. now left.
    + reflexivity.
  - apply (proj1 (proj2 (proj2 (proj2 (proj2 (reporter_is_hidden_by_the_client_only
                                                one_user)))))).
    reflexivity.
Defined.

(** * The rest of the client and of the server's routes *)

(** ** More of [App.tsx] *)

(** The state of the sign-in form. [parsed_age] is [parseInt(age)], [None]
    when it is [NaN]; the parsing itself is the browser's. *)
Record auth_form := AuthForm {
  form_email : string;
  form_password : string;
  form_fullName : string;
  form_streetName : string;
  form_houseNumber : string;
  form_wardNo : string;
  parsed_age : option number;
  selectedRole : string
}.

(** [parseInt(age) || null] *)
Definition age_or_null (parsed : option number) : jsval :=
  match parsed with
  | None => JNull
  | Some n => or_else (JNum n) JNull
  end.

(** Lines 194 to 205 of [handleAuth]: the body posted to
    [/api/auth/login]. *)
Definition login_body (f : auth_form) : jsval :=
  json [("email", JStr (form_email f)); ("password", JStr (form_password f))].

(** Lines 194 to 205 of [handleAuth]: the body posted to
    [/api/auth/signup]. *)
Definition signup_body (f : auth_form) : jsval :=
  let citizen := String.eqb (selectedRole f) "citizen" in
  let asha := String.eqb (selectedRole f) "asha" in
  json [("email", JStr (form_email f));
        ("password", JStr (form_password f));
        ("fullName", JStr (form_fullName f));
        ("role", JStr (selectedRole f));
        ("streetName", if citizen then JStr (form_streetName f) else JNull);
        ("houseNumber", if citizen then JStr (form_houseNumber f) else JNull);
        ("wardNo", if citizen || asha then JStr (form_wardNo f) else JNull);
        ("age", if citizen then age_or_null (parsed_age f) else JNull)].

(** The state of the report form: [location] is [null] until the browser
    has given a position. *)
Record report_form := ReportForm {
  form_symptoms : string;
  form_severity : number;
  form_problemType : string;
  form_location : option (number * number)
}.

(** Lines 229 to 242 of [handleSymptomSubmit]: the body posted to
    [/api/symptoms], or nothing when nobody is logged in or no position is
    known. *)
Definition symptom_body (user : option object) (f : report_form) : option jsval :=
  match user, form_location f with
  | Some u, Some (lat, lng) =>
      Some (json [("userId", prop u "id");
                  ("symptoms", JStr (form_symptoms f));
                  ("severity", JNum (form_severity f));
                  ("latitude", JNum lat);
                  ("longitude", JNum lng);
                  ("problemType", JStr (form_problemType f))])
  | _, _ => None
  end.

(** Lines 477 to 494: a log on the dashboard. *)
Record log_card := LogCard {
  card_text : jsval;
  card_status : jsval;
  card_status_variant : string;
  card_created_at : jsval;
  card_problem_type : jsval;
  card_risk : jsval;
  card_risk_variant : string;
  card_solve : bool
}.

Definition dashboard_log (user : option object) (log : object) : log_card :=
  LogCard (prop log "symptoms")
          (prop log "status")
          (if strict_eq_str (prop log "status") "solved" then "success" else "danger")
          (prop log "created_at")
          (prop log "problem_type")
          (or_else (prop log "risk_level") (JStr "Pending AI"))
          (if strict_eq_str (prop log "risk_level") "High"
              || strict_eq_str (prop log "risk_level") "Critical"
           then "danger" else "success")
          (has_role user "asha" && strict_eq_str (prop log "status") "active").

(** Line 546: the colour of a report's marker. *)
Definition marker_color (s : object) : string :=
  if strict_eq_str (prop s "status") "solved" then "#10b981" else "#ef4444".

(** Lines 583 to 590: the red circles of the "Risk Zones" layer. *)
Record circle := Circle {
  center : jsval * jsval;
  radius : Z
}.

Definition risk_zones (symptoms : list object) : list circle :=
  List.map (fun s => Circle (prop s "latitude", prop s "longitude") 500)
    (List.filter (fun s => strict_eq_str (prop s "risk_level") "High"
                           || strict_eq_str (prop s "risk_level") "Critical")
                 symptoms).

(** The objects of a JSON array; anything else has none. *)
Definition objects (v : jsval) : list object :=
  match v with
  | JArr items => List.flat_map (fun x => if x is JObj o then [o] else []) items
  | _ => []
  end.

(** [mapData.symptoms] and [mapData.alerts] after [fetchMapData] has stored
    the reply (lines 177 to 181). *)
Definition fetched (out : outcome) (name : string) : list object :=
  match out with
  | replied _ body => objects (get_opt body name)
  | uncaught _ => []
  end.

(** ** Signing up and logging in *)

(** The database with the row [u] added to [users]. *)
Definition with_user (db : database) (u : user_row) : database :=
  Database (Table (rows (users db) ++ [u]) (u_id u)) (symptom_logs db) (vital_records db)
           (ai_predictions db) (infrastructure_layers db) (emergency_alerts db).

Definition email_taken (db : database) (email : sqlval) : bool :=
  existsb (fun u => sql_eq (u_email u) email) (rows (users db)).

Definition email_exists : outcome :=
  replied 400 (JObj [("error", JStr "Email already exists")]).

(** What [POST /api/auth/signup] can do: fail before the [try], answer 400
    and store nothing, or store one row and answer 200 with its id. *)
Lemma signup_cases drv now db body :
  (exists e, signup drv now db body = (db, uncaught e))
  \/ signup drv now db body = (db, email_exists)
  \/ exists u reply,
       signup drv now db body = (with_user db u, replied 200 (JObj (("id", JNum (int (u_id u))) :: reply)))
       /\ u_id u = last_id (users db) + 1
       /\ u_created_at u = now
       /\ check_in ["citizen"; "asha"; "government"] (u_role u) = true
       /\ email_taken db (u_email u) = false
       /\ exists email password rest,
            get body "email" = inr email
            /\ get body "password" = inr password
            /\ parameters drv 8 (email :: password :: rest)
               = inr [u_email u; u_password u; u_full_name u; u_role u; u_street_name u;
                      u_house_number u; u_ward_no u; u_age u].
Proof.
  unfold signup.
  destruct (bind_throws (get body "email") _)
    as [e | [[[[[[[email password] fullName] role] streetName] houseNumber] wardNo] age]]
    eqn:G; [left; eauto | right].
  split_throws. injection G as <- <- <- <- <- <- <- <-.
  match goal with
  | |- context [match ?m with _ => _ end] => destruct m as [e | [db' id]] eqn:I
  end; [now left | right].
  split_throws.
  match goal with P : parameters _ _ _ = inr _ |- _ => name_parameters P end.
  unfold insert_user, arg in I. cbn [nth] in I.
  destruct (check_in _ _) eqn:Hrole in I; cbn [negb] in I; try discriminate I.
  destruct (existsb _ _) eqn:Htaken in I; try discriminate I.
  unfold append in I. cbv beta iota in I. injection I as <- <-.
  eexists (UserRow _ _ _ _ _ _ _ _ _ _). eexists. split; [reflexivity |].
  unfold email_taken.
  cbn [u_id u_created_at u_role u_email u_password u_full_name u_street_name
       u_house_number u_ward_no u_age].
  repeat match goal with |- _ /\ _ => split end; try reflexivity; try assumption.
  eauto 10.
Qed.

Lemma filter_and_none {A} (f g : A -> bool) (l : list A) :
  existsb f l = false -> List.filter (fun x => f x && g x) l = [].
Proof.
  induction l as [| x l IH]; simpl; [reflexivity |].
  intros H. apply orb_false_iff in H as [-> H]. simpl. now apply IH.
Qed.

Lemma sql_eq_null_r v : sql_eq v SNull = false.
Proof. now destruct v. Qed.

Definition invalid_credentials : outcome :=
  replied 401 (JObj [("error", JStr "Invalid credentials")]).

Definition credentials (e p : string) : jsval :=
  JObj [("email", JStr e); ("password", JStr p)].

Lemma sql_eq_text v t : sql_eq v (SText t) = true -> v = SText t.
Proof.
  destruct v as [| n | s]; simpl; try discriminate.
  intros H. apply String.eqb_eq in H. now subst.
Qed.

(** A login with a string for the email and a string for the password. *)
Lemma login_strings drv db body e p :
  get body "email" = inr (JStr e) ->
  get body "password" = inr (JStr p) ->
  login drv db body
  = match select (fun u => sql_eq (u_email u) (SText e) && sql_eq (u_password u) (SText p))
                 (users db) with
    | user :: _ => replied 200 (JObj (user_columns user))
    | [] => invalid_credentials
    end.
Proof.
  intros Ge Gp. unfold login. rewrite Ge, Gp. cbn [bind_throws].
  rewrite (parameters_bound drv 2 _ [SText e; SText p])
    by (try reflexivity; now repeat constructor).
  reflexivity.
Qed.

(** X1: signing up and then logging in: once a sign-up with the email [e] and
    the password [p] has been answered 200, a login with [e] and [p] is
    answered 200 with the row just stored, password included, and a login
    with [e] and any other password is answered 401. *)
Theorem signup_then_login drv now db body db' reply e p :
  get body "email" = inr (JStr e) ->
  get body "password" = inr (JStr p) ->
  signup drv now db body = (db', replied 200 reply) ->
  exists u,
    db' = with_user db u
    /\ get_opt reply "id" = JNum (int (u_id u))
    /\ u_id u = last_id (users db) + 1
    /\ login drv db' (credentials e p) = replied 200 (JObj (user_columns u))
    /\ prop (user_columns u) "email" = JStr e
    /\ prop (user_columns u) "password" = JStr p
    /\ forall p', p' <> p -> login drv db' (credentials e p') = invalid_credentials.
Proof.
  intros Ge Gp H.
  destruct (signup_cases drv now db body)
    as [[err K] | [K | (u & r & K & Hid & _ & _ & Ht & email & password & rest & Ge' & Gp'
                        & P)]];
    rewrite K in H; try discriminate H.
  injection H as <- <-. exists u.
  rewrite Ge in Ge'. injection Ge' as <-. rewrite Gp in Gp'. injection Gp' as <-.
  rewrite (parameters_cons drv 7 (JStr e) (SText e)) in P by reflexivity.
  rewrite (parameters_cons drv 6 (JStr p) (SText p)) in P by reflexivity.
  destruct (parameters drv 6 rest) as [err | cs]; cbn [bind_throws] in P; [discriminate |].
  injection P as Be Bp _.
  assert (L : forall p',
             select (fun x => sql_eq (u_email x) (SText e) && sql_eq (u_password x) (SText p'))
                    (users (with_user db u))
             = if String.eqb p p' then [u] else []).
  { intros p'. unfold select. simpl. rewrite List.filter_app.
    unfold email_taken in Ht. rewrite <- Be in Ht.
    rewrite (filter_and_none _ _ _ Ht).
    simpl. rewrite <- Be, <- Bp. simpl. rewrite String.eqb_refl. simpl.
    now destruct (String.eqb p p'). }
  split; [reflexivity |]. split; [reflexivity |]. split; [assumption |].
  split; [| split; [| split]].
  - rewrite (login_strings drv _ _ e p) by reflexivity.
    rewrite L, String.eqb_refl. reflexivity.
  - change (column (u_email u) = JStr e). now rewrite <- Be.
  - change (column (u_password u) = JStr p). now rewrite <- Bp.
  - intros p' Hne. rewrite (login_strings drv _ _ e p') by reflexivity. rewrite L.
    destruct (String.eqb_spec p p') as [-> | _]; [contradiction | reflexivity].
Qed.

Definition ravi_signs_up : jsval :=
  JObj [("email", JStr "ravi@example.org"); ("password", JStr "secret");
        ("fullName", JStr "Ravi Kumar"); ("role", JStr "citizen");
        ("streetName", JStr "MG Road"); ("houseNumber", JStr "12-4");
        ("wardNo", JStr "7"); ("age", num 34 "34")].

Lemma signup_then_login_witness :
  exists u,
    fst (signup (Driver false true) "2026-03-01 09:00:00" empty_db ravi_signs_up)
    = with_user empty_db u
    /\ login (Driver false true) (with_user empty_db u) (credentials "ravi@example.org" "secret")
       = replied 200 (JObj (user_columns u)).
Proof.
  destruct (signup_then_login (Driver false true) "2026-03-01 09:00:00" empty_db
              ravi_signs_up _ _ "ravi@example.org" "secret" eq_refl eq_refl eq_refl)
    as (u & E & _ & _ & L & _).
  exists u. split; [exact E |]. now rewrite <- E.
Defined.

(** X2: who is let in: a login with a string for the email and a string for
    the password is answered 200 only with the row of a stored user whose
    email and password are these strings, and 401 when there is none; and no
    login is answered 200 when the email or the password sent is [null]. *)
Theorem login_needs_stored_credentials drv db body :
  (forall e p reply,
      get body "email" = inr (JStr e) ->
      get body "password" = inr (JStr p) ->
      login drv db body = replied 200 reply ->
      exists u,
        In u (rows (users db))
        /\ u_email u = SText e
        /\ u_password u = SText p
        /\ reply = JObj (user_columns u))
  /\ (forall e p,
         get body "email" = inr (JStr e) ->
         get body "password" = inr (JStr p) ->
         Forall (fun u => u_email u <> SText e \/ u_password u <> SText p)
                (rows (users db)) ->
         login drv db body = invalid_credentials)
  /\ (get body "email" = inr JNull \/ get body "password" = inr JNull ->
      forall reply, login drv db body <> replied 200 reply).
Proof.
  split; [| split].
  - intros e p reply Ge Gp. rewrite (login_strings drv db body e p Ge Gp).
    destruct (select _ _) as [| u l] eqn:S; [discriminate |].
    intros [= <-].
    assert (Hu : In u (u :: l)) by now left.
    rewrite <- S in Hu. apply filter_In in Hu as [Hin Hm].
    apply andb_true_iff in Hm as [Hm1 Hm2].
    apply sql_eq_text in Hm1, Hm2. exists u. now repeat split.
  - intros e p Ge Gp Hnone. rewrite (login_strings drv db body e p Ge Gp).
    unfold select. rewrite filter_none; [reflexivity |].
    eapply Forall_impl; [exact Hnone |]. cbv beta. intros u Hu.
    destruct (sql_eq (u_email u) (SText e)) eqn:E1; [| reflexivity].
    destruct (sql_eq (u_password u) (SText p)) eqn:E2; [| reflexivity].
    apply sql_eq_text in E1, E2. now destruct Hu.
  - intros Hnull reply H. unfold login in H.
    destruct (get body "email") as [e1 | email] eqn:Ge; cbn [bind_throws] in H;
      [discriminate |].
    destruct (get body "password") as [e2 | password] eqn:Gp; cbn [bind_throws] in H;
      [discriminate |].
    destruct (parameters drv 2 [email; password]) as [e3 | bound] eqn:P;
      cbn [bind_throws] in H; [discriminate |].
    assert (K : arg 0 bound = SNull \/ arg 1 bound = SNull).
    { destruct Hnull as [G | G]; injection G as ->.
      - left. rewrite (parameters_cons drv 1 JNull SNull) in P by reflexivity.
        destruct (parameters drv 1 [password]); cbn [bind_throws] in P; [discriminate |].
        now injection P as <-.
      - right. apply (parameters_last drv 1 [email]) in P; [| reflexivity].
        now injection P. }
    unfold select in H. rewrite filter_none in H; [discriminate |].
    apply Forall_forall. intros u _.
    destruct K as [-> | ->]; rewrite sql_eq_null_r; [reflexivity | apply andb_false_r].
Qed.

Lemma login_needs_stored_credentials_witness :
  exists u,
    In u (rows (users one_user))
    /\ u_email u = SText "ravi@example.org"
    /\ u_password u = SText "secret"
    /\ JObj (user_columns ravi) = JObj (user_columns u).
Proof.
  apply (proj1 (login_needs_stored_credentials (Driver false true) one_user
                  (credentials "ravi@example.org" "secret"))
           "ravi@example.org" "secret"); reflexivity.
Defined.

(** ** The sign-up form against the server *)

(** The row a sign-up sent by the form stores: the street, the house number
    and the age of a citizen only, the ward of a citizen or an ASHA worker. *)
Definition account (f : auth_form) (id : Z) (now : timestamp) : user_row :=
  let citizen := String.eqb (selectedRole f) "citizen" in
  let asha := String.eqb (selectedRole f) "asha" in
  UserRow id (SText (form_email f)) (SText (form_password f)) (SText (form_fullName f))
          (SText (selectedRole f))
          (if citizen then SText (form_streetName f) else SNull)
          (if citizen then SText (form_houseNumber f) else SNull)
          (if citizen || asha then SText (form_wardNo f) else SNull)
          (if citizen
           then match parsed_age f with
                | Some n => if Qeq_bool (num_value n) 0 then SNull else SNum n
                | None => SNull
                end
           else SNull)
          now.

(** X3: a sign-up sent by the form, for one of the three roles it offers, is
    refused exactly when the email is taken, so that the 400 "Email already
    exists" is true of it; otherwise it stores [account], in which whatever
    the form still holds of the address and the age of an earlier choice of
    role is left out. *)
Theorem form_signup drv now db f :
  In (selectedRole f) ["citizen"; "asha"; "government"] ->
  if email_taken db (SText (form_email f))
  then signup drv now db (signup_body f) = (db, email_exists)
  else exists reply,
         signup drv now db (signup_body f)
         = (with_user db (account f (last_id (users db) + 1) now), replied 200 reply)
         /\ get_opt reply "id" = JNum (int (last_id (users db) + 1)).
Proof.
  intros Hrole. unfold email_taken.
  destruct f as [email password fullName streetName houseNumber wardNo age role].
  simpl in *.
  destruct Hrole as [<- | [<- | [<- | []]]];
    unfold signup, signup_body, account; simpl;
    try (destruct age as [n |]; unfold age_or_null, or_else; simpl;
         try destruct (Qeq_bool (num_value n) 0); simpl);
    unfold insert_user; simpl;
    destruct (existsb _ (rows (users db))); simpl;
    try reflexivity; eexists; split; reflexivity.
Qed.

(** The government official of the form, with an address left in it. *)
Definition official : auth_form :=
  AuthForm "collector@example.org" "secret" "District Collector" "MG Road" "12-4" "7"
           (Some (Number 34 "34")) "government".

Lemma form_signup_witness :
  exists reply,
    signup (Driver false true) "2026-03-01 09:00:00" one_user (signup_body official)
    = (with_user one_user
         (UserRow 2 (SText "collector@example.org") (SText "secret")
                  (SText "District Collector") (SText "government") SNull SNull SNull SNull
                  "2026-03-01 09:00:00"),
       replied 200 reply)
    /\ get_opt reply "id" = JNum (int 2).
Proof.
  apply (form_signup (Driver false true) "2026-03-01 09:00:00" one_user official).
  simpl. auto.
Defined.

(** ** The report form against the server *)

(** X4: a report sent by the form for a user who logged in, that is for the row
    of a stored user, with one of the three problem types its buttons set, is
    never refused: the first phase stores it as an active report of that user,
    whatever the text and the severity. And the form sends nothing as long as
    nobody is logged in or no position is known. *)
Theorem form_report_is_stored drv now ct db u f :
  In u (rows (users db)) ->
  In (form_problemType f) ["disease"; "drainage"; "other"] ->
  (forall user, form_location f = None -> symptom_body user f = None)
  /\ symptom_body None f = None
  /\ forall lat lng,
       form_location f = Some (lat, lng) ->
       exists body call,
         symptom_body (Some (user_columns u)) f = Some body
         /\ symptoms_begin drv now ct db body
            = awaiting (with_report db
                          (SymptomLog (last_id (symptom_logs db) + 1) (SNum (int (u_id u)))
                             (SText (form_symptoms f)) (SText (form_problemType f))
                             (SNum (form_severity f)) (SNum lat) (SNum lng) "active" now))
                       call
         /\ symptomLogId call = last_id (symptom_logs db) + 1.
Proof.
  intros Hu Htype. split; [| split].
  - intros [user |] H; unfold symptom_body; rewrite ?H; reflexivity.
  - reflexivity.
  - intros lat lng Hloc. unfold symptom_body. rewrite Hloc. eexists.
    assert (Hknown : reporter_known db (SNum (int (u_id u))) = true).
    { unfold reporter_known. apply existsb_exists. exists u. split; [assumption |].
      rewrite is_id_int. apply Z.eqb_refl. }
    assert (Hcheck : check_in ["disease"; "drainage"; "other"] (SText (form_problemType f))
                     = true).
    { simpl in Htype. destruct Htype as [<- | [<- | [<- | []]]]; reflexivity. }
    destruct (symptoms_begin_accepts drv now ct db
                (json [("userId", prop (user_columns u) "id");
                       ("symptoms", JStr (form_symptoms f));
                       ("severity", JNum (form_severity f));
                       ("latitude", JNum lat); ("longitude", JNum lng);
                       ("problemType", JStr (form_problemType f))])
                (SNum (int (u_id u))) (SText (form_symptoms f)) (SNum (form_severity f))
                (SNum lat) (SNum lng) (SText (form_problemType f)))
      as (call & E & Hid);
      try (eexists; split; reflexivity); try assumption; [now intros _ |].
    exists call. repeat split; assumption.
Qed.

Definition fever_form : report_form :=
  ReportForm "High fever, dry cough" (Number 9 "9") "disease"
             (Some (Number 12.9 "12.9", Number 77.6 "77.6")).

Lemma form_report_is_stored_witness :
  exists body call,
    symptom_body (Some (user_columns ravi)) fever_form = Some body
    /\ symptoms_begin (Driver false true) march_2 march_2_local one_user body
       = awaiting (with_report one_user
                     (SymptomLog 1 (SNum (int 1)) (SText "High fever, dry cough")
                        (SText "disease") (SNum (Number 9 "9")) (SNum (Number 12.9 "12.9"))
                        (SNum (Number 77.6 "77.6")) "active" march_2))
                  call
    /\ symptomLogId call = 1.
Proof.
  refine (proj2 (proj2 (form_report_is_stored (Driver false true) march_2 march_2_local
                          one_user ravi fever_form _ _)) _ _ eq_refl); simpl; auto.
Defined.

(** ** What a step of the server changes *)

Definition with_prediction (db : database) (p : ai_prediction) : database :=
  Database (users db) (symptom_logs db) (vital_records db)
           (Table (rows (ai_predictions db) ++ [p]) (p_id p))
           (infrastructure_layers db) (emergency_alerts db).

Definition with_alert (db : database) (a : emergency_alert) : database :=
  Database (users db) (symptom_logs db) (vital_records db) (ai_predictions db)
           (infrastructure_layers db) (Table (rows (emergency_alerts db) ++ [a]) (a_id a)).

(** The risk levels that line 181 answers with an alert. *)
Definition high (level : sqlval) : bool :=
  is_text level "Critical" || is_text level "High".

(** A call that settles with a response whose four properties, if it has
    them, are no arrays and no objects. *)
Definition plain_settled (r : ai_result) : bool :=
  match r with
  | fulfilled (inr prediction) => plain_response prediction
  | _ => true
  end.

(** What a settled call does to the database, for such a response and a
    handler whose coordinates were bound in its first phase: nothing, or one
    prediction, followed by one active alert exactly when its risk level is
    [high]. *)
Lemma resume_effect drv now db call r :
  bindable drv call ->
  plain_settled r = true ->
  res_db (symptoms_resume drv now db call r) = db
  \/ exists p,
       p_symptom_log_id p = symptomLogId call
       /\ ((high (p_risk_level p) = false
            /\ res_db (symptoms_resume drv now db call r) = with_prediction db p)
           \/ (high (p_risk_level p) = true
               /\ exists a,
                    a_status a = SText "active"
                    /\ res_db (symptoms_resume drv now db call r)
                       = with_alert (with_prediction db p) a)).
Proof.
  intros (lat & lng & Blat & Blng) Hp. unfold symptoms_resume.
  destruct (store_prediction drv now db call r) as [e | [db1 prediction]] eqn:E;
    [now left | right].
  apply store_prediction_inr in E as (a & C & I).
  apply insert_ai_prediction_inr in I as ->.
  assert (Hplain : plain_response prediction = true).
  { apply classified_reads in C as (-> & _). exact Hp. }
  apply classified_plain in C as (_ & d & c & l & act & Gd & _ & _ & _ & Gl & Bl & _);
    [| assumption].
  exists (AiPrediction (last_id (ai_predictions db) + 1) (symptomLogId call)
            (predicted_disease a) (confidence a) (risk_level a) (recommended_action a) now).
  split; [reflexivity |].
  rewrite (raise_alert_bound _ _ _ _ _ _ _ _ _ Gl Gd Blat Blng).
  unfold high. cbn [p_risk_level].
  rewrite !(strict_eq_str_bound drv l (risk_level a)) by assumption.
  destruct (is_text (risk_level a) "Critical" || is_text (risk_level a) "High").
  - right. split; [reflexivity |].
    eexists (EmergencyAlert _ _ _ _ _ _ _). split; reflexivity.
  - left. split; reflexivity.
Qed.

(** A property that holds when the server starts and that every step keeps
    holds in every state the server reaches. *)
Lemma run_invariant drv (P : server -> Prop) :
  P started ->
  (forall sv ev, P sv -> P (fst (serve drv sv ev))) ->
  forall evs, P (run drv evs).
Proof.
  intros H0 Hstep evs. unfold run. generalize started H0.
  induction evs as [| ev evs IH]; simpl; intros sv H; [assumption |].
  apply IH. now apply Hstep.
Qed.

(** What a settled call never touches. *)
Lemma resume_frame drv now db call r :
  let db' := res_db (symptoms_resume drv now db call r) in
  users db' = users db
  /\ symptom_logs db' = symptom_logs db
  /\ vital_records db' = vital_records db
  /\ infrastructure_layers db' = infrastructure_layers db.
Proof.
  unfold symptoms_resume.
  destruct (store_prediction drv now db call r) as [e | [db1 prediction]] eqn:E;
    cbn [res_db].
  { auto. }
  apply store_prediction_inr in E as (a & _ & I). apply insert_ai_prediction_inr in I as ->.
  match goal with
  | |- context [raise_alert ?d ?n ?b ?c ?p] => destruct (raise_alert d n b c p) as [e | db2] eqn:A
  end; cbn [res_db]; [auto |].
  apply raise_alert_frame in A as (-> & -> & -> & _ & ->). auto.
Qed.

Lemma signup_frame drv now db body :
  let db' := fst (signup drv now db body) in
  (db' = db \/ exists u,
      db' = with_user db u
      /\ u_id u = last_id (users db) + 1
      /\ check_in ["citizen"; "asha"; "government"] (u_role u) = true
      /\ email_taken db (u_email u) = false).
Proof.
  destruct (signup_cases drv now db body)
    as [[e K] | [K | (u & r & K & Hid & _ & Hr & Ht & _)]];
    simpl; rewrite K; simpl; [now left | now left | right; eauto].
Qed.

(** ** The users table *)

Lemma ordpairs_snoc {A} (R : A -> A -> Prop) (l : list A) (x : A) :
  ForallOrdPairs R l -> Forall (fun y => R y x) l -> ForallOrdPairs R (l ++ [x]).
Proof.
  induction 1 as [| a l Ha _ IH]; simpl; intros Hx.
  - repeat constructor.
  - apply Forall_cons in Hx as [Hax Hx]. constructor; [| now apply IH].
    apply Forall_app. split; [assumption | now repeat constructor].
Qed.

Lemma existsb_none {A} (f : A -> bool) (l : list A) :
  existsb f l = false -> Forall (fun x => f x = false) l.
Proof.
  induction l as [| x l IH]; simpl; intros H; constructor;
    apply orb_false_iff in H as [H1 H2]; auto.
Qed.

Definition users_ok (db : database) : Prop :=
  Forall (fun u => u_id u <= last_id (users db)) (rows (users db))
  /\ NoDup (List.map u_id (rows (users db)))
  /\ Forall (fun u => check_in ["citizen"; "asha"; "government"] (u_role u) = true)
            (rows (users db))
  /\ ForallOrdPairs (fun u v => sql_eq (u_email u) (u_email v) = false) (rows (users db)).

Lemma with_user_ok db u :
  users_ok db ->
  u_id u = last_id (users db) + 1 ->
  check_in ["citizen"; "asha"; "government"] (u_role u) = true ->
  email_taken db (u_email u) = false ->
  users_ok (with_user db u).
Proof.
  intros (Hb & Hd & Hr & He) Hid Hrole Ht. unfold users_ok. simpl.
  rewrite List.map_app. simpl. repeat split.
  - apply Forall_app. split; [| repeat constructor; lia].
    eapply Forall_impl; [exact Hb |]. simpl. intros. lia.
  - apply NoDup_snoc; [assumption |]. apply (below_not_in _ (last_id (users db))); [| lia].
    apply Forall_forall. intros i Hi. apply list_elem_of_In, in_map_iff in Hi as (x & <- & Hx).
    rewrite Forall_forall in Hb. now apply Hb, list_elem_of_In.
  - apply Forall_app. split; [assumption | now repeat constructor].
  - apply ordpairs_snoc; [assumption |]. now apply existsb_none in Ht.
Qed.

Lemma serve_users_ok drv sv ev : users_ok (store sv) -> users_ok (store (fst (serve drv sv ev))).
Proof.
  intros H.
  destruct ev as [now body | body | now ct body | n now r | id | req | req userId];
    unfold serve; try assumption.
  - pose proof (signup_frame drv now (store sv) body) as K. simpl in K.
    destruct (signup drv now (store sv) body) as [db out]. simpl in *.
    destruct K as [-> | (u & -> & Hid & Hr & Ht)]; [assumption | now apply with_user_ok].
  - destruct (symptoms_begin drv now ct (store sv) body) as [e | db call] eqn:E;
      simpl; [assumption |].
    apply symptoms_begin_awaiting in E as (s & -> & _). exact H.
  - destruct (suspended sv !! n) as [call |]; simpl; [| assumption].
    pose proof (resume_frame drv now (store sv) call r) as (K & _). simpl in K.
    unfold users_ok. now rewrite K.
Qed.

(** X5: the users table in every state the server reaches: ids are distinct,
    every role is NULL or one of citizen, asha and government, and no two
    users have the same email. *)
Theorem users_stay_distinct drv evs :
  let accounts := rows (users (store (run drv evs))) in
  NoDup (List.map u_id accounts)
  /\ Forall (fun u => check_in ["citizen"; "asha"; "government"] (u_role u) = true) accounts
  /\ ForallOrdPairs (fun u v => sql_eq (u_email u) (u_email v) = false) accounts.
Proof.
  assert (H : users_ok (store (run drv evs))).
  { apply (run_invariant drv (fun sv => users_ok (store sv))).
    - repeat split; constructor.
    - intros sv ev. apply serve_users_ok. }
  destruct H as (_ & Hd & Hr & He). auto.
Qed.

(** ** The reports table *)

(** What the schema and the handlers keep true of a report. *)
Definition report_ok (drv : driver) (db : database) (s : symptom_log) : Prop :=
  check_in ["disease"; "drainage"; "other"] (s_problem_type s) = true
  /\ (s_status s = "active" \/ s_status s = "solved")
  /\ (foreign_keys drv = true -> reporter_known db (s_user_id s) = true).

Definition reports_ok (drv : driver) (sv : server) : Prop :=
  Forall (report_ok drv (store sv)) (rows (symptom_logs (store sv)))
  /\ Forall (fun i => In i (report_ids (store sv))) (assessed_ids (store sv))
  /\ Forall (fun i => In i (report_ids (store sv))) (awaited_ids sv).

Lemma reporter_known_with_user db u v :
  reporter_known db v = true -> reporter_known (with_user db u) v = true.
Proof.
  unfold reporter_known. destruct v; try easy; simpl; rewrite existsb_app;
    intros ->; reflexivity.
Qed.

Lemma report_ok_solved drv db s : report_ok drv db s -> report_ok drv db (solved s).
Proof. intros (Hc & _ & Hk). repeat split; auto. Qed.

Lemma serve_reports_ok drv sv ev :
  reports_ok drv sv -> reports_ok drv (fst (serve drv sv ev)).
Proof.
  intros (Hr & Hp & Hs).
  destruct ev as [now body | body | now ct body | n now r | id | req | req userId];
    unfold serve; try (now split).
  - (* signup *)
    pose proof (signup_frame drv now (store sv) body) as K. simpl in K.
    destruct (signup drv now (store sv) body) as [db out]. simpl in *.
    destruct K as [-> | (u & -> & _)]; [now split |].
    split; [| now split]. simpl.
    eapply Forall_impl; [exact Hr |]. simpl. intros s (Hc & Hst & Hk).
    repeat split; auto. intros Hon. now apply reporter_known_with_user, Hk.
  - (* a report is submitted *)
    destruct (symptoms_begin drv now ct (store sv) body) as [e | db call] eqn:E;
      simpl; [now split |].
    apply symptoms_begin_awaiting in E as (s & -> & _ & Hcall & Hst & _ & Hc & Hk & _).
    unfold reports_ok, report_ids, assessed_ids, awaited_ids in *. simpl.
    rewrite !List.map_app. simpl. repeat split.
    + apply Forall_app. split; [exact Hr |]. repeat constructor; auto.
    + eapply Forall_impl; [exact Hp |]. simpl. intros i Hi. apply in_or_app. now left.
    + apply Forall_app. split.
      * eapply Forall_impl; [exact Hs |]. simpl. intros i Hi. apply in_or_app. now left.
      * repeat constructor. rewrite Hcall. apply in_or_app. right. now left.
  - (* a call settles *)
    destruct (suspended sv !! n) as [call |] eqn:L; simpl; [| now split].
    pose proof (resume_frame drv now (store sv) call r) as (K1 & K2 & _).
    pose proof (resume_keeps drv now (store sv) call r) as (_ & K3).
    simpl in K1, K2, K3.
    assert (Hcall : In (symptomLogId call) (report_ids (store sv))).
    { unfold awaited_ids in Hs. rewrite Forall_forall in Hs. apply Hs.
      apply list_elem_of_In, in_map, list_elem_of_In. now apply list_elem_of_lookup_2 in L. }
    unfold reports_ok, report_ok, reporter_known, report_ids, awaited_ids in *. simpl.
    rewrite K1, K2. repeat split; [exact Hr | |].
    + destruct K3 as [-> | ->]; [exact Hp |].
      apply Forall_app. split; [exact Hp | now repeat constructor].
    + apply (awaited_delete _ _ _) in L. rewrite L in Hs.
      now apply Forall_cons in Hs as [_ Hs].
  - (* a report is solved *)
    pose proof (solve_keeps (store sv) id) as (K1 & _ & K3).
    pose proof (solve_rows (store sv) id) as K4.
    destruct (solve (store sv) id) as [db out] eqn:S. simpl in *.
    assert (Hu : users db = users (store sv)) by (now injection S as <- _).
    unfold reports_ok, report_ok, reporter_known, assessed_ids in *. simpl.
    rewrite K1, K3, K4, Hu. repeat split; try assumption.
    apply Forall_forall. intros x Hx.
    apply list_elem_of_In, in_map_iff in Hx as (s & <- & Hin).
    rewrite Forall_forall in Hr. apply list_elem_of_In, Hr in Hin.
    destruct (is_id (s_id s) id); [| exact Hin].
    destruct Hin as (Hc & _ & Hk). repeat split; auto.
Qed.

(** X6: the reports in every state the server reaches: each has a category that
    is NULL or one of disease, drainage and other and a status that is active
    or solved; when foreign keys are enforced its reporter is NULL or a stored
    user; and every prediction, and every handler waiting for the classifier,
    belongs to a stored report. *)
Theorem references_stay_valid drv evs :
  let sv := run drv evs in
  Forall (fun s =>
            check_in ["disease"; "drainage"; "other"] (s_problem_type s) = true
            /\ (s_status s = "active" \/ s_status s = "solved")
            /\ (foreign_keys drv = true -> reporter_known (store sv) (s_user_id s) = true))
         (rows (symptom_logs (store sv)))
  /\ Forall (fun p => exists s, report (p_symptom_log_id p) (store sv) = Some s)
            (rows (ai_predictions (store sv)))
  /\ Forall (fun call => exists s, report (symptomLogId call) (store sv) = Some s)
            (suspended sv).
Proof.
  assert (H : reports_ok drv (run drv evs)).
  { apply (run_invariant drv (reports_ok drv)).
    - repeat split; constructor.
    - intros sv ev. apply serve_reports_ok. }
  destruct H as (Hr & Hp & Hs). simpl. split; [exact Hr |].
  assert (K : forall i, In i (report_ids (store (run drv evs))) ->
                        exists s, report i (store (run drv evs)) = Some s).
  { intros i Hi. unfold report_ids in Hi. apply in_map_iff in Hi as (s & <- & Hin).
    unfold report, select.
    destruct (List.filter _ _) as [| x l] eqn:F; [| now exists x].
    assert (Hs' : In s []) by (rewrite <- F; apply filter_In; split;
                               [assumption | apply Z.eqb_refl]).
    destruct Hs'. }
  split; apply Forall_forall; intros x Hx; apply K.
  - unfold assessed_ids in Hp. rewrite Forall_forall in Hp. apply Hp.
    now apply list_elem_of_In, in_map, list_elem_of_In.
  - unfold awaited_ids in Hs. rewrite Forall_forall in Hs. apply Hs.
    now apply list_elem_of_In, in_map, list_elem_of_In.
Qed.

(** ** Alerts *)

Lemma objects_map {A} (f : A -> object) (l : list A) :
  objects (JArr (List.map (fun x => JObj (f x)) l)) = List.map f l.
Proof. simpl. induction l as [| x l IH]; simpl; [reflexivity |]. now rewrite IH. Qed.

Definition high_predictions (db : database) : list ai_prediction :=
  select (fun p => high (p_risk_level p)) (ai_predictions db).

Definition alerts_ok (drv : driver) (sv : server) : Prop :=
  Forall (bindable drv) (suspended sv)
  /\ Forall (fun a => a_status a = SText "active") (rows (emergency_alerts (store sv)))
  /\ length (rows (emergency_alerts (store sv))) = length (high_predictions (store sv)).

Lemma signup_keeps_alerts drv now db body :
  ai_predictions (fst (signup drv now db body)) = ai_predictions db
  /\ emergency_alerts (fst (signup drv now db body)) = emergency_alerts db
  /\ vital_records (fst (signup drv now db body)) = vital_records db
  /\ infrastructure_layers (fst (signup drv now db body)) = infrastructure_layers db.
Proof.
  pose proof (signup_frame drv now db body) as K. simpl in K.
  destruct K as [-> | (u & -> & _)]; auto.
Qed.

(** A request, or a settled call, in which the values that go to the
    alert and to the risk level are no arrays and no objects: the coordinates
    of a report, the four properties of a response. *)
Definition plain (ev : event) : bool :=
  match ev with
  | PostSymptoms _ _ body => plain_coordinates body
  | Settles _ _ r => plain_settled r
  | _ => true
  end.

Lemma serve_alerts_ok drv sv ev :
  plain ev = true -> alerts_ok drv sv -> alerts_ok drv (fst (serve drv sv ev)).
Proof.
  intros Hplain (Hb & Ha & Hn).
  destruct ev as [now body | body | now ct body | n now r | id | req | req userId];
    unfold serve; try (now split).
  - pose proof (signup_keeps_alerts drv now (store sv) body) as (K1 & K2 & _).
    destruct (signup drv now (store sv) body) as [db out]. simpl in *.
    unfold alerts_ok, high_predictions. simpl. now rewrite K1, K2.
  - destruct (symptoms_begin drv now ct (store sv) body) as [e | db call] eqn:E;
      simpl; [now split |].
    pose proof (begin_bindable _ _ _ _ _ _ _ E Hplain) as B.
    apply symptoms_begin_awaiting in E as (s & -> & _).
    unfold alerts_ok. simpl. repeat split; try assumption.
    apply Forall_app. split; [assumption | now repeat constructor].
  - destruct (suspended sv !! n) as [call |] eqn:L; simpl; [| now split].
    assert (B : bindable drv call) by (eapply Forall_lookup_1; eassumption).
    unfold alerts_ok. simpl. split; [now apply Forall_delete |].
    destruct (resume_effect drv now (store sv) call r B Hplain)
      as [-> | (p & _ & [(Hp & ->) | (Hp & a & Hact & ->)])];
      unfold high_predictions, select; simpl; rewrite ?List.filter_app; simpl;
      rewrite ?Hp; rewrite ?length_app; simpl.
    + now split.
    + split; [assumption |]. unfold high_predictions, select in Hn. lia.
    + split; [| unfold high_predictions, select in Hn; lia].
      apply Forall_app. split; [assumption | now repeat constructor].
Qed.

(** A property that holds when the server starts and that every step of
    a kind keeps holds in every state the server reaches by steps of that
    kind. *)
Lemma run_invariant_on drv (Q : event -> Prop) (P : server -> Prop) :
  P started ->
  (forall sv ev, Q ev -> P sv -> P (fst (serve drv sv ev))) ->
  forall evs, Forall Q evs -> P (run drv evs).
Proof.
  intros H0 Hstep evs. unfold run. generalize started H0.
  induction evs as [| ev evs IH]; simpl; intros sv H Hq; [assumption |].
  apply Forall_cons in Hq as [Hev Hq]. apply IH; [| assumption]. now apply Hstep.
Qed.

Lemma run_alerts_ok drv evs :
  Forall (fun ev => plain ev = true) evs -> alerts_ok drv (run drv evs).
Proof.
  apply (run_invariant_on drv (fun ev => plain ev = true) (alerts_ok drv)).
  - repeat split; constructor.
  - intros sv ev. apply serve_alerts_ok.
Qed.

(** The server after a sign-up and a report that the classifier calls
    High. *)
Definition one_alert : list event :=
  [PostSignup "2026-03-01 09:00:00"
     (JObj [("email", JStr "ravi@example.org"); ("password", JStr "secret");
            ("fullName", JStr "Ravi Kumar"); ("role", JStr "citizen");
            ("streetName", JStr "MG Road"); ("houseNumber", JStr "12-4");
            ("wardNo", JStr "7"); ("age", num 34 "34")]);
   PostSymptoms march_2 march_2_local (fever_report (num 9 "9"));
   Settles 0 march_2 (fulfilled (inr (dengue "High")))].

(** X7: alerts and predictions in every state the server reaches by reports
    whose coordinates, and responses whose four properties, are no arrays and
    no objects: there are as many alerts as stored predictions with the risk
    level Critical or High, every alert is active, and the map view returns
    every alert there is. *)
Theorem alerts_follow_predictions drv evs req :
  Forall (fun ev => plain ev = true) evs ->
  let db := store (run drv evs) in
  length (rows (emergency_alerts db)) = length (high_predictions db)
  /\ Forall (fun a => a_status a = SText "active") (rows (emergency_alerts db))
  /\ active_alerts db = rows (emergency_alerts db)
  /\ fetched (map_data req db) "alerts"
     = List.map emergency_alert_columns (rows (emergency_alerts db)).
Proof.
  intros Hplain.
  destruct (run_alerts_ok drv evs Hplain) as (_ & Ha & Hn). simpl.
  assert (K : active_alerts (store (run drv evs))
              = rows (emergency_alerts (store (run drv evs)))).
  { unfold active_alerts, select. clear Hn.
    induction Ha as [| a l Hact _ IH]; simpl; [reflexivity |].
    rewrite Hact. simpl. now rewrite IH. }
  repeat split; try assumption.
  unfold fetched, map_data. rewrite K.
  change (get_opt _ "alerts")
    with (JArr (List.map (fun a => JObj (emergency_alert_columns a))
                         (rows (emergency_alerts (store (run drv evs)))))).
  apply objects_map.
Qed.

Lemma alerts_follow_predictions_witness :
  length (rows (emergency_alerts (store (run (Driver false true) one_alert)))) = 1%nat
  /\ length (high_predictions (store (run (Driver false true) one_alert))) = 1%nat.
Proof.
  split; [reflexivity |].
  rewrite <- (proj1 (alerts_follow_predictions (Driver false true) one_alert fetch_map_data
                       ltac:(repeat constructor))).
  reflexivity.
Defined.

(** ** Tables no route writes *)

Lemma serve_keeps_vitals drv sv ev :
  vital_records (store (fst (serve drv sv ev))) = vital_records (store sv)
  /\ infrastructure_layers (store (fst (serve drv sv ev))) = infrastructure_layers (store sv).
Proof.
  destruct ev as [now body | body | now ct body | n now r | id | req | req userId];
    unfold serve; try (now split).
  - pose proof (signup_keeps_alerts drv now (store sv) body) as (_ & _ & K1 & K2).
    destruct (signup drv now (store sv) body) as [db out]. now split.
  - destruct (symptoms_begin drv now ct (store sv) body) as [e | db call] eqn:E;
      simpl; [now split |].
    apply symptoms_begin_awaiting in E as (s & -> & _). now split.
  - destruct (suspended sv !! n) as [call |]; simpl; [| now split].
    pose proof (resume_frame drv now (store sv) call r) as (_ & _ & K1 & K2). now split.
Qed.

(** X8: no route writes [vital_records] or [infrastructure_layers]: in every
    state the server reaches both are empty, so that the reply of
    [GET /api/user-stats] has no [vitals] and the map view no
    infrastructure. *)
Theorem vitals_and_infrastructure_stay_empty drv evs req userId :
  let db := store (run drv evs) in
  vital_records db = empty_table
  /\ infrastructure_layers db = empty_table
  /\ user_stats req userId db
     = replied 200 (JObj [("logs", JArr (List.map (fun s => JObj (symptom_log_columns s))
                                                  (recent_logs db userId)))])
  /\ fetched (map_data req db) "infrastructure" = [].
Proof.
  assert (H : vital_records (store (run drv evs)) = empty_table
              /\ infrastructure_layers (store (run drv evs)) = empty_table).
  { apply (run_invariant drv (fun sv => vital_records (store sv) = empty_table
                                        /\ infrastructure_layers (store sv) = empty_table)).
    - now split.
    - intros sv ev [H1 H2]. destruct (serve_keeps_vitals drv sv ev) as [K1 K2].
      now rewrite K1, K2. }
  destruct H as [H1 H2]. simpl. repeat split; try assumption.
  - unfold user_stats, latest_vitals, select. now rewrite H1.
  - unfold fetched, map_data. now rewrite H2.
Qed.

(** ** A solved report stays solved *)

Definition run_from (drv : driver) (sv : server) (evs : list event) : server :=
  fold_left (fun sv ev => fst (serve drv sv ev)) evs sv.

Lemma solved_again s : s_status s = "solved" -> solved s = s.
Proof. destruct s. simpl. now intros ->. Qed.

Lemma report_with_report db new id s :
  report id db = Some s -> report id (with_report db new) = Some s.
Proof.
  unfold report, select. simpl. rewrite List.filter_app.
  destruct (List.filter _ (rows (symptom_logs db))); [discriminate | easy].
Qed.

Lemma report_solve db v id s :
  report id db = Some s ->
  report id (fst (solve db v)) = Some (if is_id (s_id s) v then solved s else s).
Proof.
  unfold report, select. rewrite solve_rows.
  induction (rows (symptom_logs db)) as [| x l IH]; simpl; [discriminate |].
  replace (s_id (if is_id (s_id x) v then solved x else x)) with (s_id x)
    by now destruct (is_id (s_id x) v).
  destruct (Z.eqb (s_id x) id); simpl; [now intros [= ->] | exact IH].
Qed.

(** One step of the server leaves a stored report in place, as it was or
    solved. *)
Lemma serve_report drv sv ev id s :
  report id (store sv) = Some s ->
  report id (store (fst (serve drv sv ev))) = Some s
  \/ report id (store (fst (serve drv sv ev))) = Some (solved s).
Proof.
  intros H.
  destruct ev as [now body | body | now ct body | n now r | v | req | req userId];
    unfold serve; try (now left).
  - pose proof (signup_keeps drv now (store sv) body) as (K & _).
    destruct (signup drv now (store sv) body) as [db out]. simpl in *.
    left. unfold report in *. now rewrite K.
  - destruct (symptoms_begin drv now ct (store sv) body) as [e | db call] eqn:E;
      simpl; [now left |].
    apply symptoms_begin_awaiting in E as (new & -> & _).
    left. now apply report_with_report.
  - destruct (suspended sv !! n) as [call |]; simpl; [| now left].
    pose proof (resume_frame drv now (store sv) call r) as (_ & K & _). simpl in K.
    left. unfold report in *. now rewrite K.
  - pose proof (report_solve (store sv) v id s H) as K.
    destruct (solve (store sv) v) as [db out]. simpl in *.
    destruct (is_id (s_id s) v); auto.
Qed.

(** X9: no report is ever removed or altered but for its status, and a solved
    report stays as it is: whatever the server does next, in whatever order,
    a stored report is read back either unchanged or solved, and a solved one
    unchanged. *)
Theorem solved_is_final drv sv evs id s :
  report id (store sv) = Some s ->
  (report id (store (run_from drv sv evs)) = Some s
   \/ report id (store (run_from drv sv evs)) = Some (solved s))
  /\ (s_status s = "solved" -> report id (store (run_from drv sv evs)) = Some s).
Proof.
  intros H.
  assert (K : report id (store (run_from drv sv evs)) = Some s
              \/ report id (store (run_from drv sv evs)) = Some (solved s)).
  { unfold run_from. revert sv s H. induction evs as [| ev evs IH]; simpl; intros sv s H.
    - now left.
    - destruct (serve_report drv sv ev id s H) as [H' | H'].
      + now apply IH.
      + destruct (IH _ _ H') as [-> | ->]; [now right |].
        right. now rewrite solved_again. }
  split; [exact K |]. intros Hs. rewrite (solved_again _ Hs) in K. now destruct K.
Qed.

Lemma solved_is_final_witness :
  report 1 (store (run_from (Driver false true)
                     (Server (with_report one_user (stored_fever (Number 9 "9"))) [] [] [])
                     [PostSolve (SNum (int 1));
                      PostSymptoms march_2 march_2_local (fever_report (num 3 "3"));
                      PostSolve (SNum (int 1))]))
  = Some (solved (stored_fever (Number 9 "9"))).
Proof.
  destruct (proj1 (solved_is_final (Driver false true)
                     (Server (with_report one_user (stored_fever (Number 9 "9"))) [] [] [])
                     [PostSolve (SNum (int 1));
                      PostSymptoms march_2 march_2_local (fever_report (num 3 "3"));
                      PostSolve (SNum (int 1))]
                     1 (stored_fever (Number 9 "9")) eq_refl)) as [H | H].
  - discriminate H.
  - exact H.
Defined.

(** ** Solving a report while its classification is pending *)

Definition solve_in (db : database) (id : sqlval) : database := fst (solve db id).

Lemma existsb_solve db id k :
  existsb (fun s => Z.eqb (s_id s) k) (rows (symptom_logs (solve_in db id)))
  = existsb (fun s => Z.eqb (s_id s) k) (rows (symptom_logs db)).
Proof.
  unfold solve_in. rewrite solve_rows.
  induction (rows (symptom_logs db)) as [| x l IH]; simpl; [reflexivity |].
  rewrite IH. now destruct (is_id (s_id x) id).
Qed.

Lemma store_prediction_solve drv now db id call r :
  store_prediction drv now (solve_in db id) call r
  = match store_prediction drv now db call r with
    | inl e => inl e
    | inr (db', prediction) => inr (solve_in db' id, prediction)
    end.
Proof.
  unfold store_prediction.
  destruct (classified drv r) as [e | [prediction a]]; simpl; [reflexivity |].
  unfold insert_ai_prediction. rewrite existsb_solve.
  destruct (foreign_keys drv && _); reflexivity.
Qed.

Lemma raise_alert_solve drv now db id call prediction :
  raise_alert drv now (solve_in db id) call prediction
  = match raise_alert drv now db call prediction with
    | inl e => inl e
    | inr db' => inr (solve_in db' id)
    end.
Proof.
  unfold raise_alert.
  destruct (get prediction "risk_level") as [e | l]; simpl; [reflexivity |].
  destruct (strict_eq_str l "Critical" || strict_eq_str l "High"); [| reflexivity].
  destruct (get prediction "predicted_disease") as [e | d]; cbn [bind_throws];
    [reflexivity |].
  destruct (parameters drv 4 _) as [e | bound]; reflexivity.
Qed.

(** X10: solving a report and the settling of a classification, of this report
    or of another, do not interfere: in either order they leave the same
    database, and the handler that was waiting sends the same reply and prints
    the same. *)
Theorem solving_commutes_with_settling drv now db id call r :
  let settle_first := symptoms_resume drv now db call r in
  let solve_first := symptoms_resume drv now (solve_in db id) call r in
  res_db solve_first = solve_in (res_db settle_first) id
  /\ res_out solve_first = res_out settle_first
  /\ res_console solve_first = res_console settle_first.
Proof.
  unfold symptoms_resume. rewrite store_prediction_solve.
  destruct (store_prediction drv now db call r) as [e | [db1 prediction]]; simpl.
  { now repeat split. }
  rewrite raise_alert_solve.
  destruct (raise_alert drv now db1 call prediction) as [e | db2]; simpl;
    now repeat split.
Qed.

(** ** The points of the map *)

Lemma run_users_ok drv evs : users_ok (store (run drv evs)).
Proof.
  apply (run_invariant drv (fun sv => users_ok (store sv))).
  - repeat split; constructor.
  - intros sv ev. apply serve_users_ok.
Qed.

Lemma run_reports_ok drv evs : reports_ok drv (run drv evs).
Proof.
  apply (run_invariant drv (reports_ok drv)).
  - repeat split; constructor.
  - intros sv ev. apply serve_reports_ok.
Qed.

Lemma is_id_same i j v : is_id i v = true -> is_id j v = true -> i = j.
Proof.
  unfold is_id, sql_eq. destruct v as [| n |]; try discriminate. simpl.
  intros Hi Hj. apply Qeq_bool_iff in Hi, Hj. apply inject_Z_injective.
  now rewrite Hi, Hj.
Qed.

Lemma at_most_one_user (l : list user_row) (v : sqlval) :
  NoDup (List.map u_id l) ->
  (length (List.filter (fun u => is_id (u_id u) v) l) <= 1)%nat.
Proof.
  induction l as [| x l IH]; simpl; intros H; [lia |].
  apply NoDup_cons in H as [Hx Hl].
  destruct (is_id (u_id x) v) eqn:E; [| now apply IH].
  rewrite filter_none; [simpl; lia |].
  apply Forall_forall. intros y Hy. destruct (is_id (u_id y) v) eqn:E'; [| reflexivity].
  exfalso. apply Hx. rewrite (is_id_same _ _ _ E E').
  apply list_elem_of_In, in_map, list_elem_of_In, Hy.
Qed.

(** A LEFT JOIN in which every row has at most one match returns each row
    once. *)
Lemma left_join_once {A B} (cond : A -> B -> bool) (l : list A) (r : list B) :
  Forall (fun a => (length (List.filter (cond a) r) <= 1)%nat) l ->
  List.map fst (left_join cond l r) = l.
Proof.
  unfold left_join. induction 1 as [| a l Ha _ IH]; [reflexivity |].
  cbn [flat_map]. rewrite List.map_app, IH.
  destruct (List.filter (cond a) r) as [| b [| c m]]; simpl in *; try reflexivity; lia.
Qed.

Definition matches (s : symptom_log) (p : ai_prediction) : bool :=
  Z.eqb (s_id s) (p_symptom_log_id p).

Definition reporter (sp : symptom_log * option ai_prediction) (u : user_row) : bool :=
  is_id (u_id u) (s_user_id (fst sp)).

Lemma map_symptoms_once drv evs :
  let db := store (run drv evs) in
  List.map fst (map_symptoms db)
  = left_join matches (rows (symptom_logs db)) (rows (ai_predictions db))
  /\ List.map fst (left_join matches (rows (symptom_logs db)) (rows (ai_predictions db)))
     = rows (symptom_logs db).
Proof.
  simpl. split.
  - apply (left_join_once reporter). apply Forall_forall. intros sp _.
    apply at_most_one_user. now destruct (run_users_ok drv evs) as (_ & Hd & _).
  - apply left_join_once. apply Forall_forall. intros s _.
    destruct (run_consistent drv evs) as [_ _ _ Hs _].
    apply NoDup_app in Hs as (Hs & _).
    rewrite (List.filter_ext _ (fun p => Z.eqb (p_symptom_log_id p) (s_id s)))
      by (intros p; apply Z.eqb_sym).
    now apply at_most_one.
Qed.

(** The properties of a point of the map. *)
Definition point (r : symptom_log * option ai_prediction * option user_row) : object :=
  let '(s, p, u) := r in
  (symptom_log_columns s ++
   [("predicted_disease", joined p_predicted_disease p);
    ("risk_level", joined p_risk_level p);
    ("full_name", joined u_full_name u);
    ("street_name", joined u_street_name u);
    ("house_number", joined u_house_number u);
    ("ward_no", joined u_ward_no u);
    ("age", joined u_age u)])%list.

Lemma fetched_symptoms req db :
  fetched (map_data req db) "symptoms" = List.map point (map_symptoms db).
Proof.
  unfold fetched, map_data.
  change (get_opt _ "symptoms") with (JArr (List.map map_point (map_symptoms db))).
  rewrite <- objects_map. f_equal. f_equal. apply List.map_ext. now intros [[s p] u].
Qed.

(** X11: in every state the server reaches the map view has one point for each
    report, in the order of the reports: the joins with the predictions and
    with the users repeat none and drop none. *)
Theorem one_point_per_report drv evs req :
  let db := store (run drv evs) in
  List.map (fun o => prop o "id") (fetched (map_data req db) "symptoms")
  = List.map (fun s => JNum (int (s_id s))) (rows (symptom_logs db))
  /\ length (fetched (map_data req db) "symptoms") = length (rows (symptom_logs db)).
Proof.
  cbv zeta. rewrite fetched_symptoms.
  destruct (map_symptoms_once drv evs) as [K1 K2]. cbv zeta in K1, K2.
  assert (K : List.map (fun r => fst (fst r)) (map_symptoms (store (run drv evs)))
              = rows (symptom_logs (store (run drv evs)))).
  { rewrite <- (List.map_map fst fst). rewrite K1. exact K2. }
  split.
  - rewrite List.map_map. rewrite <- K. rewrite List.map_map.
    apply List.map_ext. now intros [[s p] u].
  - rewrite length_map. rewrite <- K. now rewrite length_map.
Qed.

(** ** Risk zones and alerts *)

Lemma filter_map_length {A B} (f : A -> B) (P : B -> bool) (l : list A) :
  length (List.filter P (List.map f l)) = length (List.filter (fun x => P (f x)) l).
Proof.
  induction l as [| x l IH]; simpl; [reflexivity |].
  destruct (P (f x)); simpl; now rewrite IH.
Qed.

Lemma flat_map_split_length {A B} (h : B -> bool) (F G : A -> list B) (l : list A) :
  length (List.filter h (List.flat_map (fun a => F a ++ G a)%list l))
  = (length (List.filter h (List.flat_map F l))
     + length (List.filter h (List.flat_map G l)))%nat.
Proof.
  induction l as [| a l IH]; simpl; [reflexivity |].
  rewrite !List.filter_app, !length_app, IH. lia.
Qed.

(** Among rows with distinct ids, exactly one has a given one of the ids. *)
Lemma only_match {B} (x : B) (l : list symptom_log) (k : Z) :
  NoDup (List.map s_id l) ->
  In k (List.map s_id l) ->
  List.flat_map (fun s => if Z.eqb (s_id s) k then [x] else []) l = [x].
Proof.
  induction l as [| s l IH]; simpl; intros Hd Hin; [destruct Hin |].
  apply NoDup_cons in Hd as [Hs Hd].
  destruct (Z.eqb_spec (s_id s) k) as [E | E].
  - simpl. f_equal. clear IH Hin. subst k.
    induction l as [| t l IH]; simpl; [reflexivity |].
    apply not_elem_of_cons in Hs as [Hne Hs]. simpl in Hd. apply NoDup_cons in Hd as [_ Hd].
    destruct (Z.eqb_spec (s_id t) (s_id s)) as [E | _]; [now symmetry in E | now apply IH].
  - destruct Hin as [Hin | Hin]; [contradiction | now apply IH].
Qed.

(** As many predictions are joined to the reports as there are
    predictions, when report ids are distinct and each prediction belongs to a
    report. *)
Lemma joined_predictions (h : ai_prediction -> bool) (reports : list symptom_log)
    (preds : list ai_prediction) :
  NoDup (List.map s_id reports) ->
  Forall (fun p => In (p_symptom_log_id p) (List.map s_id reports)) preds ->
  length (List.filter h (List.flat_map (fun s => List.filter (matches s) preds) reports))
  = length (List.filter h preds).
Proof.
  intros Hd. induction 1 as [| p ps Hp _ IH].
  - simpl. induction reports as [| s l IHl]; simpl; [reflexivity |].
    apply IHl. simpl in Hd. now apply NoDup_cons in Hd as [_ Hd].
  - rewrite (List.flat_map_ext _
               (fun s => (if Z.eqb (s_id s) (p_symptom_log_id p) then [p] else [])
                         ++ List.filter (matches s) ps)%list)
      by (intros s; simpl; unfold matches at 1; now destruct (Z.eqb _ _)).
    rewrite flat_map_split_length, IH, (only_match p) by assumption.
    simpl. now destruct (h p).
Qed.

Definition high_joined (p : option ai_prediction) : bool :=
  match p with
  | Some p => high (p_risk_level p)
  | None => false
  end.

Lemma left_join_high (reports : list symptom_log) (preds : list ai_prediction) :
  length (List.filter (fun sp => high_joined (snd sp)) (left_join matches reports preds))
  = length (List.filter (fun p => high (p_risk_level p))
              (List.flat_map (fun s => List.filter (matches s) preds) reports)).
Proof.
  unfold left_join. induction reports as [| s l IH]; [reflexivity |].
  cbn [flat_map]. rewrite !List.filter_app, !length_app, IH. f_equal.
  destruct (List.filter (matches s) preds) as [| b m]; [reflexivity |].
  now rewrite (filter_map_length (fun b => (s, Some b)) (fun sp => high_joined (snd sp))).
Qed.

Lemma zone_drawn r :
  strict_eq_str (prop (point r) "risk_level") "High"
  || strict_eq_str (prop (point r) "risk_level") "Critical"
  = high_joined (snd (fst r)).
Proof.
  destruct r as [[s p] u]. unfold point, high_joined, high.
  change (prop _ "risk_level") with (joined p_risk_level p).
  destruct p as [p |]; [| reflexivity]. unfold joined. simpl.
  destruct (p_risk_level p); simpl; try reflexivity. apply orb_comm.
Qed.

(** X12: in every state the server reaches by reports whose coordinates, and
    responses whose four properties, are no arrays and no objects, the map
    draws as many risk zones as there are alerts: one red circle for each
    report whose stored prediction has the risk level High or Critical, each
    of which raised one alert. *)
Theorem risk_zones_match_alerts drv evs req :
  Forall (fun ev => plain ev = true) evs ->
  let db := store (run drv evs) in
  length (risk_zones (fetched (map_data req db) "symptoms"))
  = length (rows (emergency_alerts db))
  /\ Forall (fun c => radius c = 500) (risk_zones (fetched (map_data req db) "symptoms")).
Proof.
  intros Hplain. cbv zeta. rewrite fetched_symptoms. split.
  - unfold risk_zones. rewrite length_map.
    rewrite (filter_map_length point).
    rewrite (List.filter_ext _ (fun r => high_joined (snd (fst r)))) by apply zone_drawn.
    rewrite <- (filter_map_length fst (fun sp => high_joined (snd sp))).
    destruct (map_symptoms_once drv evs) as [K1 K2]. cbv zeta in K1, K2. rewrite K1.
    rewrite left_join_high.
    destruct (run_consistent drv evs) as [_ Hd _ _ _].
    destruct (run_reports_ok drv evs) as (_ & Hp & _).
    destruct (run_alerts_ok drv evs Hplain) as (_ & _ & Hn).
    rewrite joined_predictions; [now rewrite Hn | exact Hd |].
    apply Forall_forall. intros p Hin. unfold assessed_ids in Hp.
    rewrite Forall_forall in Hp. apply Hp.
    now apply list_elem_of_In, in_map, list_elem_of_In.
  - unfold risk_zones. apply Forall_forall. intros c Hc.
    apply list_elem_of_In, in_map_iff in Hc as (o & <- & _). reflexivity.
Qed.

Lemma risk_zones_match_alerts_witness :
  length (risk_zones (fetched (map_data fetch_map_data
                                 (store (run (Driver false true) one_alert))) "symptoms"))
  = 1%nat.
Proof.
  rewrite (proj1 (risk_zones_match_alerts (Driver false true) one_alert fetch_map_data
                    ltac:(repeat constructor))).
  reflexivity.
Defined.

(** ** The dashboard *)

Lemma fetched_logs req userId db :
  fetched (user_stats req userId db) "logs"
  = List.map symptom_log_columns (recent_logs db userId).
Proof.
  unfold fetched, user_stats.
  change (get_opt _ "logs")
    with (JArr (List.map (fun s => JObj (symptom_log_columns s)) (recent_logs db userId))).
  apply objects_map.
Qed.

(** X13: the dashboard shows every log that [GET /api/user-stats] returns as
    "Pending AI", in the colour of a low risk, whether or not the report has
    been classified: the logs come without a risk level. *)
Theorem dashboard_risk_is_always_pending req userId db user :
  length (fetched (user_stats req userId db) "logs") = length (recent_logs db userId)
  /\ Forall (fun log =>
               card_risk (dashboard_log user log) = JStr "Pending AI"
               /\ card_risk_variant (dashboard_log user log) = "success")
            (fetched (user_stats req userId db) "logs").
Proof.
  rewrite fetched_logs. split; [apply length_map |].
  apply Forall_forall. intros log Hlog.
  apply list_elem_of_In, in_map_iff in Hlog as (s & <- & _). split; reflexivity.
Qed.

(** ** A solved report on the map *)

Lemma left_join_in {A B} (cond : A -> B -> bool) (l : list A) (r : list B) a b :
  In (a, b) (left_join cond l r) -> In a l.
Proof.
  unfold left_join. intros H. apply in_flat_map in H as (x & Hx & H).
  destruct (List.filter (cond x) r) as [| y m].
  - destruct H as [[= <- _] | []]. exact Hx.
  - apply in_map_iff in H as (z & [= <- _] & _). exact Hx.
Qed.

Lemma int_injective a b : JNum (int a) = JNum (int b) -> a = b.
Proof. unfold int. intros [= H _]. exact H. Qed.

Lemma recent_logs_in db userId s :
  In s (recent_logs db userId) -> In s (rows (symptom_logs db)).
Proof.
  unfold recent_logs, order_by_created_at_desc, select. intros H.
  apply list_elem_of_In, elem_of_take in H as (i & H & _).
  apply list_elem_of_lookup_2 in H. rewrite merge_sort_Permutation in H.
  apply list_elem_of_In, filter_In in H as [H _]. exact H.
Qed.

(** X14: once a report has been marked solved, the server says so wherever
    it returns the report: every point of it in the map view has the status
    solved, its marker is green and its popup does not offer "Mark as
    Solved"; and every log of it that [GET /api/user-stats] returns is shown
    on the dashboard as solved, without the "Solve" button; whoever is logged
    in. *)
Theorem solved_report_offers_no_button db v user i :
  is_id i v = true ->
  (forall req o,
      In o (fetched (map_data req (solve_in db v)) "symptoms") ->
      prop o "id" = JNum (int i) ->
      prop o "status" = JStr "solved"
      /\ marker_color o = "#10b981"
      /\ (forall d, details (marker_popup user o) = Some d -> mark_as_solved d = false))
  /\ (forall req userId log,
         In log (fetched (user_stats req userId (solve_in db v)) "logs") ->
         prop log "id" = JNum (int i) ->
         card_status (dashboard_log user log) = JStr "solved"
         /\ card_status_variant (dashboard_log user log) = "success"
         /\ card_solve (dashboard_log user log) = false).
Proof.
  intros Hv.
  assert (K : forall s, In s (rows (symptom_logs (solve_in db v))) -> s_id s = i ->
                        s_status s = "solved").
  { intros s Hin Hid. unfold solve_in in Hin. rewrite solve_rows in Hin.
    apply in_map_iff in Hin as (s0 & Hs & _). subst i. subst s.
    destruct (is_id (s_id s0) v) eqn:E; [reflexivity |].
    now rewrite E in Hv. }
  split.
  - intros req o Ho Hid. rewrite fetched_symptoms in Ho.
    apply in_map_iff in Ho as ([[s p] u] & <- & Hin).
    unfold map_symptoms in Hin. apply left_join_in, left_join_in in Hin.
    assert (Hst : prop (point (s, p, u)) "status" = JStr "solved").
    { change (prop (point (s, p, u)) "status") with (JStr (s_status s)).
      change (prop (point (s, p, u)) "id") with (JNum (int (s_id s))) in Hid.
      apply int_injective in Hid. now rewrite (K s Hin Hid). }
    split; [exact Hst |]. unfold marker_color, marker_popup.
    rewrite Hst. simpl. split; [reflexivity |].
    intros d. destruct (has_role user "asha" || has_role user "government");
      [| discriminate]. intros [= <-]. simpl. apply andb_false_r.
  - intros req userId log Hlog Hid. rewrite fetched_logs in Hlog.
    apply in_map_iff in Hlog as (s & <- & Hin). apply recent_logs_in in Hin.
    assert (Hst : prop (symptom_log_columns s) "status" = JStr "solved").
    { change (prop (symptom_log_columns s) "status") with (JStr (s_status s)).
      change (prop (symptom_log_columns s) "id") with (JNum (int (s_id s))) in Hid.
      apply int_injective in Hid. now rewrite (K s Hin Hid). }
    unfold dashboard_log. cbn [card_status card_status_variant card_solve].
    rewrite Hst. simpl. repeat split. apply andb_false_r.
Qed.

(** An ASHA worker, as [POST /api/auth/login] returns them to the
    client. *)
Definition an_asha : object :=
  [("id", num 3 "3"); ("email", JStr "asha@example.org"); ("full_name", JStr "Lata Devi");
   ("role", JStr "asha")].

Lemma solved_report_offers_no_button_witness :
  marker_color (point (solved (stored_fever (Number 9 "9")), None, Some ravi)) = "#10b981"
  /\ card_solve (dashboard_log (Some an_asha)
                   (symptom_log_columns (solved (stored_fever (Number 9 "9"))))) = false.
Proof.
  pose proof (solved_report_offers_no_button
                (with_report one_user (stored_fever (Number 9 "9"))) (SNum (int 1))
                (Some an_asha) 1 eq_refl) as [Hmap Hlogs].
  split.
  - refine (proj1 (proj2 (Hmap fetch_map_data
                            (point (solved (stored_fever (Number 9 "9")), None, Some ravi))
                            _ eq_refl))).
    simpl. now left.
  - refine (proj2 (proj2 (Hlogs two_please (SNum (int 1))
                            (symptom_log_columns (solved (stored_fever (Number 9 "9"))))
                            _ eq_refl))).
    vm_compute. now left.
Defined.

(** ** The latest vitals of a user *)

(** X15: [GET /api/user-stats] returns as [vitals] a record of the user that no
    other record of the user is newer than, and none exactly when the user
    has no record. *)
Theorem latest_vitals_is_latest db userId :
  let mine := select (fun v => sql_eq (v_user_id v) userId) (vital_records db) in
  match latest_vitals db userId with
  | Some v => In v mine /\ forall v', In v' mine -> newer_first v_created_at v v'
  | None => mine = []
  end.
Proof.
  cbv zeta. unfold latest_vitals.
  set (mine := select (fun v => sql_eq (v_user_id v) userId) (vital_records db)).
  pose proof (StronglySorted_merge_sort (newer_first v_created_at) mine) as Hs.
  pose proof (merge_sort_Permutation (newer_first v_created_at) mine) as Hp.
  unfold order_by_created_at_desc.
  destruct (merge_sort (newer_first v_created_at) mine) as [| v l]; simpl.
  - now apply Permutation_nil in Hp.
  - apply StronglySorted_cons in Hs as [Hall _]. split.
    + apply list_elem_of_In. rewrite <- Hp. now left.
    + intros v' Hv'. apply list_elem_of_In in Hv'. rewrite <- Hp in Hv'.
      apply elem_of_cons in Hv' as [-> | Hv'].
      * destruct (newer_first_total v_created_at v v); assumption.
      * rewrite Forall_forall in Hall. now apply Hall.
Qed.
